(** * MCP-BTC-Watch: the Bitcoin price server of [src/index.ts]

    A shallow embedding of the price lookup with its provider fallback,
    of the tool registry, and of the HTTP/SSE request handler, followed
    by the properties of the specification that were checked against it.

    JavaScript values are an inductive type, numbers are IEEE-754
    doubles in the representation of [SpecFloat], exceptions are values
    of a sum type, and the effects of the program (console output,
    outbound HTTP calls, writes on the response object, the interval
    timer) are explicit. *)

From Stdlib Require Import ZArith List String Ascii Bool Lia.
From Stdlib Require Import Floats.SpecFloat.
From Stdlib Require Import Decimal DecimalString DecimalPos.
Import ListNotations.

Local Open Scope string_scope.
Local Open Scope Z_scope.

(** ** JavaScript values *)

#[local] Set Warnings "-register-all".

(** The values that [JSON.parse] and property reads can produce.  An
    object is the list of its own properties, in the order in which the
    engine enumerates them. *)
Inductive Value : Type :=
| VUndefined
| VNull
| VBool (b : bool)
| VNum (x : spec_float)
| VStr (s : string)
| VArr (items : list Value)
| VObj (props : list (string * Value)).

(** The constructors of the exceptions that reach this program. *)
Inductive ErrorClass : Type :=
| Error_            (* new Error(...) *)
| TypeError_
| RangeError_
| SyntaxError_      (* JSON.parse *)
| AxiosError_       (* rejection of axios.get: no reply, or a status outside 2xx *)
| ERR_HTTP_HEADERS_SENT.

Record JsError : Type := mkJsError { class : ErrorClass; message : string }.

Definition Result (A : Type) : Type := (JsError + A)%type.

(** ** The world outside the program *)

(** The second argument of [axios.get(url, config)]. *)
Record AxiosRequest : Type := mkAxiosRequest {
  rq_url : string;
  rq_headers : list (string * string);
  rq_params : list (string * string)
}.

(** Everything the program reads from its environment and from the
    JavaScript engine.  [axios_get] is the outcome of awaiting
    [axios.get]: the [data] of the response, or the rejection.
    [Number_toString_finite m e] is the engine's rendering (shortest
    digits that read back as the same double) of the positive finite
    double [m * 2^e]; [Date_toISOString v] stands for
    [new Date(v * 1000).toISOString()]. *)
Record World : Type := mkWorld {
  COINMARKETCAP_API_KEY : option string;
  axios_get : AxiosRequest -> Result Value;
  JSON_parse : string -> Result Value;
  Number_toString_finite : positive -> Z -> string;
  Date_toISOString : Value -> Result string
}.

(** ** Effects of the lookup: console lines and outbound calls *)

Inductive LogArg : Type :=
| LStr (s : string)
| LVal (v : Value)
| LErr (e : JsError).

Inductive Event : Type :=
| ConsoleLog (args : list LogArg)
| ConsoleError (args : list LogArg)
| AxiosGet (rq : AxiosRequest).

(** A computation reads the world, may throw, and emits events. *)
Definition Eff (A : Type) : Type := World -> Result A * list Event.

Definition ret {A} (a : A) : Eff A := fun _ => (inr a, []).

Definition throw {A} (e : JsError) : Eff A := fun _ => (inl e, []).

Definition bind {A B} (m : Eff A) (k : A -> Eff B) : Eff B :=
  fun w =>
    match m w with
    | (inl e, t) => (inl e, t)
    | (inr a, t) => let (r, t') := k a w in (r, (t ++ t')%list)
    end.

(** [try { m } catch (e) { h e }] *)
Definition try_catch {A} (m : Eff A) (h : JsError -> Eff A) : Eff A :=
  fun w =>
    match m w with
    | (inr a, t) => (inr a, t)
    | (inl e, t) => let (r, t') := h e w in (r, (t ++ t')%list)
    end.

Definition emit (ev : Event) : Eff unit := fun _ => (inr tt, [ev]).

Definition ask {A} (f : World -> A) : Eff A := fun w => (inr (f w), []).

Declare Scope eff_scope.
Delimit Scope eff_scope with eff.
Notation "x <- m ;; k" := (bind m (fun x => k))
  (at level 61, m at next level, right associativity) : eff_scope.
Notation "m ;; k" := (bind m (fun _ => k))
  (at level 61, right associativity) : eff_scope.

Definition console_log (args : list LogArg) : Eff unit := emit (ConsoleLog args).
Definition console_error (args : list LogArg) : Eff unit := emit (ConsoleError args).

(** [await axios.get(url, config)], reduced to [response.data]. *)
Definition axios_get_data (rq : AxiosRequest) : Eff Value :=
  fun w => (axios_get w rq, [AxiosGet rq]).

(** ** Property reads *)

Fixpoint lookup (k : string) (props : list (string * Value)) : option Value :=
  match props with
  | [] => None
  | (k', v) :: rest => if String.eqb k k' then Some v else lookup k rest
  end.

Definition TypeError (msg : string) : JsError := mkJsError TypeError_ msg.
Definition Error (msg : string) : JsError := mkJsError Error_ msg.

(** [v.k] for the property names this program reads ([name], [data],
    [BTC], [quote], ...): none of them is an index, [length] or a member
    of a built-in prototype, so the read yields an own property of an
    object and [undefined] on everything else; reading from [undefined]
    or [null] throws. *)
Definition get_prop (v : Value) (k : string) : Result Value :=
  match v with
  | VUndefined =>
      inl (TypeError ("Cannot read properties of undefined (reading '" ++ k ++ "')"))
  | VNull =>
      inl (TypeError ("Cannot read properties of null (reading '" ++ k ++ "')"))
  | VObj props =>
      match lookup k props with
      | Some x => inr x
      | None => inr VUndefined
      end
  | _ => inr VUndefined
  end.

(** ** Numbers as text *)

(** [Number::toString(x)] in radix 10. *)
Definition Number_toString (w : World) (x : spec_float) : string :=
  match x with
  | S754_nan => "NaN"
  | S754_zero _ => "0"
  | S754_infinity false => "Infinity"
  | S754_infinity true => "-Infinity"
  | S754_finite false m e => Number_toString_finite w m e
  | S754_finite true m e => "-" ++ Number_toString_finite w m e
  end.

(** The decimal digits of a natural number, ["0"] for zero. *)
Definition decimal_digits (n : Z) : string :=
  NilEmpty.string_of_uint (N.to_uint (Z.to_N n)).

Fixpoint zeros (k : nat) : string :=
  match k with
  | O => EmptyString
  | S k' => String "0" (zeros k')
  end.

(** Whether the positive double [m * 2^e] is at least [10^21]. *)
Definition ge_1e21 (m : positive) (e : Z) : bool :=
  if 0 <=? e then 10 ^ 21 <=? Z.pos m * 2 ^ e
  else 10 ^ 21 * 2 ^ (- e) <=? Z.pos m.

(** The integer [n] for which [n / 10^f - m * 2^e] is closest to zero,
    the larger one when there are two. *)
Definition nearest_scaled (f : nat) (m : positive) (e : Z) : Z :=
  if 0 <=? e then Z.pos m * 2 ^ e * 10 ^ Z.of_nat f
  else (2 * Z.pos m * 10 ^ Z.of_nat f + 2 ^ (- e)) / (2 * 2 ^ (- e)).

(** Steps 11.b and 11.c of [Number.prototype.toFixed]: the digits of
    [n], padded on the left to [f + 1] digits, with a point before the
    last [f]. *)
Definition fixed_notation (f : nat) (n : Z) : string :=
  let m := decimal_digits n in
  match f with
  | O => m
  | _ =>
      let m := if (String.length m <=? f)%nat
               then zeros (f + 1 - String.length m) ++ m else m in
      let k := String.length m in
      substring 0 (k - f) m ++ "." ++ substring (k - f) f m
  end.

(** [x.toFixed(f)] for a number [x] and [0 <= f <= 100]. *)
Definition Number_toFixed (w : World) (f : nat) (x : spec_float) : string :=
  match x with
  | S754_nan | S754_infinity _ => Number_toString w x
  | S754_zero _ => fixed_notation f 0
  | S754_finite s m e =>
      (if s then "-" else EmptyString) ++
      (if ge_1e21 m e then Number_toString w (S754_finite false m e)
       else fixed_notation f (nearest_scaled f m e))
  end.

(** [recv.toFixed(2)] on an arbitrary value; [expr] is the source text
    of the receiver, which the engine quotes when the member is not a
    function. *)
Definition call_toFixed (w : World) (expr : string) (recv : Value) : Result string :=
  match recv with
  | VNum x => inr (Number_toFixed w 2 x)
  | VUndefined =>
      inl (TypeError "Cannot read properties of undefined (reading 'toFixed')")
  | VNull =>
      inl (TypeError "Cannot read properties of null (reading 'toFixed')")
  | _ => inl (TypeError (expr ++ ".toFixed is not a function"))
  end.

(** ** Conversion to string, as in a template literal *)

(** [ToString(v)].  An object converts through [Object.prototype.toString]
    unless it has an own [toString] property, which, coming from JSON, is
    not callable: then no conversion exists.  An array converts through
    [join]. *)
Fixpoint ToString (w : World) (v : Value) {struct v} : Result string :=
  match v with
  | VUndefined => inr "undefined"
  | VNull => inr "null"
  | VBool true => inr "true"
  | VBool false => inr "false"
  | VNum x => inr (Number_toString w x)
  | VStr s => inr s
  | VArr items =>
      (fix join (xs : list Value) : Result string :=
         match xs with
         | [] => inr EmptyString
         | x :: rest =>
             match (match x with
                    | VUndefined | VNull => inr EmptyString
                    | _ => ToString w x
                    end) with
             | inl e => inl e
             | inr s =>
                 match rest with
                 | [] => inr s
                 | _ => match join rest with
                        | inl e => inl e
                        | inr t => inr (s ++ "," ++ t)
                        end
                 end
             end
         end) items
  | VObj props =>
      match lookup "toString" props with
      | Some _ => inl (TypeError "Cannot convert object to primitive value")
      | None => inr "[object Object]"
      end
  end.

(** ** JSON.stringify *)

Definition hex_digit (n : N) : ascii :=
  if (n <? 10)%N then ascii_of_N (48 + n) else ascii_of_N (87 + n).

Definition dquote : ascii := "034"%char.
Definition backslash : ascii := "092"%char.

(** One character of [QuoteJSONString]. *)
Definition quote_char (c : ascii) : string :=
  let n := N_of_ascii c in
  if (n =? 8)%N then String backslash "b"
  else if (n =? 9)%N then String backslash "t"
  else if (n =? 10)%N then String backslash "n"
  else if (n =? 12)%N then String backslash "f"
  else if (n =? 13)%N then String backslash "r"
  else if (n =? 34)%N then String backslash (String dquote EmptyString)
  else if (n =? 92)%N then String backslash (String backslash EmptyString)
  else if (n <? 32)%N then
    String backslash
      (String "u" (String "0" (String "0"
         (String (hex_digit (n / 16)) (String (hex_digit (n mod 16)) EmptyString)))))
  else String c EmptyString.

Fixpoint quote_chars (s : string) : string :=
  match s with
  | EmptyString => EmptyString
  | String c rest => quote_char c ++ quote_chars rest
  end.

Definition QuoteJSONString (s : string) : string :=
  String dquote (quote_chars s ++ String dquote EmptyString).

Fixpoint join_comma (parts : list string) : string :=
  match parts with
  | [] => EmptyString
  | [p] => p
  | p :: rest => p ++ "," ++ join_comma rest
  end.

(** [SerializeJSONProperty]: [None] is the [undefined] result, which
    drops a property of an object and becomes [null] inside an array. *)
Fixpoint serialize (w : World) (v : Value) {struct v} : option string :=
  match v with
  | VUndefined => None
  | VNull => Some "null"
  | VBool true => Some "true"
  | VBool false => Some "false"
  | VNum x =>
      match x with
      | S754_nan | S754_infinity _ => Some "null"
      | _ => Some (Number_toString w x)
      end
  | VStr s => Some (QuoteJSONString s)
  | VArr items =>
      Some ("[" ++ join_comma
              ((fix elems (xs : list Value) : list string :=
                  match xs with
                  | [] => []
                  | x :: rest =>
                      match serialize w x with
                      | Some s => s
                      | None => "null"
                      end :: elems rest
                  end) items) ++ "]")
  | VObj props =>
      Some ("{" ++ join_comma
              ((fix members (ps : list (string * Value)) : list string :=
                  match ps with
                  | [] => []
                  | (k, x) :: rest =>
                      match serialize w x with
                      | Some s => (QuoteJSONString k ++ ":" ++ s) :: members rest
                      | None => members rest
                      end
                  end) props) ++ "}")
  end.

(** [JSON.stringify(v)] *)
Definition JSON_stringify (w : World) (v : Value) : option string := serialize w v.

(** ** The two providers *)

(** The object returned by a successful lookup.  [last_updated] is
    whatever the primary provider sent, or the ISO string computed from
    the secondary provider's epoch seconds. *)
Record PriceRecord : Type := mkPriceRecord {
  price : string;
  percent_change_24h : string;
  market_cap : string;
  last_updated : Value;
  source : string
}.

Definition rbind {A B} (r : Result A) (k : A -> Result B) : Result B :=
  match r with
  | inl e => inl e
  | inr a => k a
  end.

Definition CMC_URL : string :=
  "https://pro-api.coinmarketcap.com/v1/cryptocurrency/quotes/latest".

Definition COINGECKO_URL : string :=
  "https://api.coingecko.com/api/v3/simple/price".

Definition CMC_request (apiKey : string) : AxiosRequest :=
  {| rq_url := CMC_URL;
     rq_headers := [("X-CMC_PRO_API_KEY", apiKey)];
     rq_params := [("symbol", "BTC"); ("convert", "USD")] |}.

Definition CoinGecko_request : AxiosRequest :=
  {| rq_url := COINGECKO_URL;
     rq_headers := [];
     rq_params := [("ids", "bitcoin"); ("vs_currencies", "usd");
                   ("include_market_cap", "true");
                   ("include_24hr_change", "true");
                   ("include_last_updated_at", "true")] |}.

(** [btcData.quote.USD.k] *)
Definition quote_USD (btcData : Value) (k : string) : Result Value :=
  rbind (get_prop btcData "quote") (fun q =>
  rbind (get_prop q "USD") (fun usd => get_prop usd k)).

Notation "'let*' x ':=' r 'in' k" := (rbind r (fun x => k))
  (at level 10, x name, r at level 100, k at level 200, only parsing).

(** The statements of [getBitcoinPriceFromCMC] that follow the reply:
    they read [response.data] and build the record, or throw. *)
Definition CMC_record (w : World) (data : Value) : Result PriceRecord :=
  let* btcData := (let* d := get_prop data "data" in get_prop d "BTC") in
  let* price := quote_USD btcData "price" in
  let* percentChange24h := quote_USD btcData "percent_change_24h" in
  let* marketCap := quote_USD btcData "market_cap" in
  let* lastUpdated := quote_USD btcData "last_updated" in
  let* p := call_toFixed w "price" price in
  let* c := call_toFixed w "percentChange24h" percentChange24h in
  let* m := call_toFixed w "marketCap" marketCap in
  inr {| price := p;
         percent_change_24h := c;
         market_cap := m;
         last_updated := lastUpdated;
         source := "CoinMarketCap" |}.

(** The same for [getBitcoinPriceFromCoinGecko]. *)
Definition CoinGecko_record (w : World) (data : Value) : Result PriceRecord :=
  let* btcData := get_prop data "bitcoin" in
  let* usd := get_prop btcData "usd" in
  let* p := call_toFixed w "btcData.usd" usd in
  let* change := get_prop btcData "usd_24h_change" in
  let* c := call_toFixed w "btcData.usd_24h_change" change in
  let* cap := get_prop btcData "usd_market_cap" in
  let* m := call_toFixed w "btcData.usd_market_cap" cap in
  let* last_updated_at := get_prop btcData "last_updated_at" in
  let* iso := Date_toISOString w last_updated_at in
  inr {| price := p;
         percent_change_24h := c;
         market_cap := m;
         last_updated := VStr iso;
         source := "CoinGecko" |}.

Definition with_world_eff {A} (f : World -> Result A) : Eff A :=
  fun w => (f w, []).

Section Providers.
Local Open Scope eff_scope.

(** The body of the [try] block of [getBitcoinPriceFromCMC]. *)
Definition CMC_try : Eff PriceRecord :=
  apiKey <- ask COINMARKETCAP_API_KEY ;;
  match apiKey with
  | None | Some EmptyString =>
      throw (Error "COINMARKETCAP_API_KEY not found in environment variables")
  | Some apiKey =>
      data <- axios_get_data (CMC_request apiKey) ;;
      with_world_eff (fun w => CMC_record w data)
  end.

Definition getBitcoinPriceFromCMC : Eff PriceRecord :=
  try_catch CMC_try
    (fun error =>
       console_error [LStr "CoinMarketCap API error:"; LStr (message error)] ;;
       throw error).

(** The body of the [try] block of [getBitcoinPriceFromCoinGecko]. *)
Definition CoinGecko_try : Eff PriceRecord :=
  data <- axios_get_data CoinGecko_request ;;
  with_world_eff (fun w => CoinGecko_record w data).

Definition getBitcoinPriceFromCoinGecko : Eff PriceRecord :=
  try_catch CoinGecko_try
    (fun error =>
       console_error [LStr "CoinGecko API error:"; LStr (message error)] ;;
       throw error).

(** ** The lookup with fallback *)

Definition getBitcoinPrice : Eff PriceRecord :=
  try_catch getBitcoinPriceFromCMC
    (fun _ =>
       console_log [LStr "Falling back to CoinGecko API..."] ;;
       try_catch getBitcoinPriceFromCoinGecko
         (fun _ =>
            console_error [LStr "All API attempts failed"] ;;
            throw (Error "Failed to fetch Bitcoin price"))).

End Providers.

(** Outbound calls to a given URL among the events of a run. *)
Definition is_call_to (u : string) (ev : Event) : bool :=
  match ev with
  | AxiosGet rq => String.eqb (rq_url rq) u
  | _ => false
  end.

Definition calls_to (u : string) (t : list Event) : nat :=
  List.length (filter (is_call_to u) t).

(** The calls that leave the process during a run. *)
Definition outbound_calls (t : list Event) : list Event :=
  filter (fun ev => match ev with AxiosGet _ => true | _ => false end) t.

(** ** The tool registry *)

Definition string_property (description : string) : Value :=
  VObj [("type", VStr "string"); ("description", VStr description)].

Definition mcp : Value :=
  VObj [
    ("schemaVersion", VStr "2.0");
    ("tools", VObj [
      ("get-bitcoin-price", VObj [
        ("description", VStr "Get the current price of Bitcoin (BTC) in USD");
        ("input", VObj [
          ("type", VStr "object");
          ("properties", VObj []);
          ("required", VArr [])]);
        ("output", VObj [
          ("type", VStr "object");
          ("properties", VObj [
            ("price", string_property "Current price of Bitcoin in USD");
            ("percent_change_24h",
               string_property "24-hour percent change in Bitcoin price");
            ("market_cap",
               string_property "Current market cap of Bitcoin in USD");
            ("last_updated",
               string_property "Timestamp of when the price was last updated");
            ("source",
               string_property "Data source (CoinMarketCap or CoinGecko)")]);
          ("required", VArr [VStr "price"; VStr "percent_change_24h";
                             VStr "market_cap"; VStr "last_updated";
                             VStr "source"])])])])].

(** ** The response object and the connection *)

(** The part of Node's [ServerResponse] that the handler drives.
    [header_stored] is set once [writeHead] (or the first write) has
    fixed the status line and headers; [written] are the body chunks
    handed to the socket, in order. *)
Record ServerResponse : Type := mkServerResponse {
  outHeaders : list (string * string);
  statusCode : Z;
  header_stored : bool;
  written : list string;
  finished : bool
}.

(** One connection: its response, the period, in milliseconds, of the
    interval timer while one is set, and whether the request has a
    listener for its [close] event. *)
Record Conn : Type := mkConn {
  res : ServerResponse;
  heartbeatInterval : option Z;
  closeListener : bool
}.

Definition fresh_res : ServerResponse :=
  {| outHeaders := []; statusCode := 200; header_stored := false;
     written := []; finished := false |}.

Definition fresh_conn : Conn :=
  {| res := fresh_res; heartbeatInterval := None; closeListener := false |}.

Definition lower_char (c : ascii) : ascii :=
  let n := N_of_ascii c in
  if ((65 <=? n) && (n <=? 90))%N then ascii_of_N (n + 32) else c.

Fixpoint lower (s : string) : string :=
  match s with
  | EmptyString => EmptyString
  | String c rest => String (lower_char c) (lower rest)
  end.

(** Header names are unique up to case; a later value replaces an
    earlier one. *)
Definition store_header (k v : string) (hs : list (string * string))
  : list (string * string) :=
  (filter (fun kv => negb (String.eqb (lower (fst kv)) (lower k))) hs ++ [(k, v)])%list.

Definition HEADERS_SENT (what : string) : JsError :=
  mkJsError ERR_HTTP_HEADERS_SENT
    ("Cannot " ++ what ++ " headers after they are sent to the client").

(** ** Computations of the request handler *)

(** They read the world, drive the connection, may throw, and emit the
    events of the lookups they run. *)
Definition Srv (A : Type) : Type := World -> Conn -> Result A * Conn * list Event.

Definition sret {A} (a : A) : Srv A := fun _ c => (inr a, c, []).

Definition sthrow {A} (e : JsError) : Srv A := fun _ c => (inl e, c, []).

Definition sbind {A B} (m : Srv A) (k : A -> Srv B) : Srv B :=
  fun w c =>
    match m w c with
    | (inl e, c', t) => (inl e, c', t)
    | (inr a, c', t) =>
        match k a w c' with
        | (r, c'', t') => (r, c'', (t ++ t')%list)
        end
    end.

Definition stry_catch {A} (m : Srv A) (h : JsError -> Srv A) : Srv A :=
  fun w c =>
    match m w c with
    | (inr a, c', t) => (inr a, c', t)
    | (inl e, c', t) =>
        match h e w c' with
        | (r, c'', t') => (r, c'', (t ++ t')%list)
        end
    end.

(** A lookup run from the handler: it does not touch the connection. *)
Definition liftE {A} (m : Eff A) : Srv A :=
  fun w c => let (r, t) := m w in (r, c, t).

Definition with_world {A} (f : World -> Result A) : Srv A :=
  fun w c => (f w, c, []).

Definition on_res (f : ServerResponse -> Result ServerResponse) : Srv unit :=
  fun _ c =>
    match f (res c) with
    | inl e => (inl e, c, [])
    | inr r => (inr tt, {| res := r;
                           heartbeatInterval := heartbeatInterval c;
                           closeListener := closeListener c |}, [])
    end.

Declare Scope srv_scope.
Delimit Scope srv_scope with srv.
Notation "x <- m ;; k" := (sbind m (fun x => k))
  (at level 61, m at next level, right associativity) : srv_scope.
Notation "m ;; k" := (sbind m (fun _ => k))
  (at level 61, right associativity) : srv_scope.

(** [res.setHeader(k, v)] *)
Definition setHeader (k v : string) : Srv unit :=
  on_res (fun r =>
    if header_stored r then inl (HEADERS_SENT "set")
    else inr {| outHeaders := store_header k v (outHeaders r);
                statusCode := statusCode r;
                header_stored := false;
                written := written r;
                finished := finished r |}).

(** [res.writeHead(status, obj)]: refused once the header is stored. *)
Definition writeHead (status : Z) (obj : list (string * string)) : Srv unit :=
  on_res (fun r =>
    if header_stored r then inl (HEADERS_SENT "write")
    else inr {| outHeaders :=
                  fold_left (fun hs kv => store_header (fst kv) (snd kv) hs)
                            obj (outHeaders r);
                statusCode := status;
                header_stored := true;
                written := written r;
                finished := finished r |}).

Definition write_chunk (chunk : string) (r : ServerResponse) : ServerResponse :=
  if finished r then r
  else {| outHeaders := outHeaders r;
          statusCode := statusCode r;
          header_stored := true;
          written := (written r ++ [chunk])%list;
          finished := false |}.

(** [res.write(chunk)] *)
Definition write (chunk : string) : Srv unit :=
  on_res (fun r => inr (write_chunk chunk r)).

(** [res.end(data)], where [data] may be [undefined]. *)
Definition end_ (data : option string) : Srv unit :=
  on_res (fun r =>
    if finished r then inr r
    else
      let r' := match data with
                | Some chunk => write_chunk chunk r
                | None => r
                end in
      inr {| outHeaders := outHeaders r';
             statusCode := statusCode r';
             header_stored := true;
             written := written r';
             finished := true |}).

Definition setInterval (period : Z) : Srv unit :=
  fun _ c => (inr tt, {| res := res c;
                         heartbeatInterval := Some period;
                         closeListener := closeListener c |}, []).

Definition clearInterval : Srv unit :=
  fun _ c => (inr tt, {| res := res c;
                         heartbeatInterval := None;
                         closeListener := closeListener c |}, []).

(** [req.on("close", ...)] *)
Definition req_on_close : Srv unit :=
  fun _ c => (inr tt, {| res := res c;
                         heartbeatInterval := heartbeatInterval c;
                         closeListener := true |}, []).

Definition slog (args : list LogArg) : Srv unit := liftE (console_log args).
Definition serror (args : list LogArg) : Srv unit := liftE (console_error args).

(** A string-or-undefined inside a template literal. *)
Definition template_of (o : option string) : string :=
  match o with
  | Some s => s
  | None => "undefined"
  end.

Definition newline : string := String "010"%char EmptyString.

(** ** The request handler *)

(** What the handler reads of the incoming request; [chunks] are the
    pieces of the body in the order of the [data] events. *)
Record IncomingMessage : Type := mkIncomingMessage {
  method : string;
  url : string;
  chunks : list string
}.

(** The object literal returned by a provider. *)
Definition PriceRecord_value (r : PriceRecord) : Value :=
  VObj [("price", VStr (price r));
        ("percent_change_24h", VStr (percent_change_24h r));
        ("market_cap", VStr (market_cap r));
        ("last_updated", last_updated r);
        ("source", VStr (source r))].

(** [v === s] for a string literal [s]. *)
Definition strict_eq_string (v : Value) (s : string) : bool :=
  match v with
  | VStr t => String.eqb t s
  | _ => false
  end.

Definition error_payload (msg : string) : Value :=
  VObj [("error", VObj [("message", VStr msg)])].

Definition json_type : list (string * string) :=
  [("Content-Type", "application/json")].

Definition heartbeat_chunk : string := ":heartbeat" ++ newline ++ newline.

Section Handler.
Local Open Scope srv_scope.

(** The listener of the request's [end] event, on the buffered body.
    An [inl] result is an exception that leaves the listener: nothing
    above it catches it. *)
Definition execute_end (body : string) : Srv unit :=
  stry_catch
    (request <- with_world (fun w => JSON_parse w body) ;;
     slog [LStr "Received request:"; LVal request] ;;
     name <- with_world (fun _ => get_prop request "name") ;;
     if strict_eq_string name "get-bitcoin-price" then
       bitcoinData <- liftE getBitcoinPrice ;;
       writeHead 200 json_type ;;
       payload <- with_world (fun w =>
         inr (JSON_stringify w (VObj [("result", PriceRecord_value bitcoinData)]))) ;;
       end_ payload
     else
       writeHead 400 json_type ;;
       name <- with_world (fun _ => get_prop request "name") ;;
       text <- with_world (fun w => ToString w name) ;;
       payload <- with_world (fun w =>
         inr (JSON_stringify w (error_payload ("Unknown tool: " ++ text)))) ;;
       end_ payload)
    (fun error =>
       serror [LStr "Error processing request:"; LErr error] ;;
       writeHead 500 json_type ;;
       payload <- with_world (fun w =>
         inr (JSON_stringify w (error_payload (message error)))) ;;
       end_ payload).

(** The callback of the interval timer and the listener of the
    request's [close] event on a streaming connection. *)
Definition heartbeat_callback : Srv unit := write heartbeat_chunk.

Definition close_listener : Srv unit :=
  slog [LStr "SSE connection closed"] ;;
  clearInterval.

(** The callback given to [http.createServer]. *)
Definition requestListener (req : IncomingMessage) : Srv unit :=
  setHeader "Access-Control-Allow-Origin" "*" ;;
  setHeader "Access-Control-Allow-Methods" "OPTIONS, POST, GET" ;;
  setHeader "Access-Control-Allow-Headers" "Content-Type" ;;
  if String.eqb (method req) "OPTIONS" then
    writeHead 204 [] ;;
    end_ None
  else
    slog [LStr ("Received " ++ method req ++ " request for " ++ url req)] ;;
    if String.eqb (method req) "GET" && String.eqb (url req) "/events" then
      writeHead 200 [("Content-Type", "text/event-stream");
                     ("Cache-Control", "no-cache");
                     ("Connection", "keep-alive")] ;;
      schema <- with_world (fun w => inr (JSON_stringify w mcp)) ;;
      write ("data: " ++ template_of schema ++ newline ++ newline) ;;
      setInterval 30000 ;;
      req_on_close
    else if String.eqb (method req) "GET" && String.eqb (url req) "/" then
      writeHead 200 json_type ;;
      schema <- with_world (fun w => inr (JSON_stringify w mcp)) ;;
      end_ schema
    else if String.eqb (method req) "GET" && String.eqb (url req) "/health" then
      writeHead 200 json_type ;;
      payload <- with_world (fun w =>
        inr (JSON_stringify w (VObj [("status", VStr "healthy")]))) ;;
      end_ payload
    else if String.eqb (method req) "POST" && String.eqb (url req) "/execute" then
      execute_end (String.concat EmptyString (chunks req))
    else
      writeHead 404 json_type ;;
      payload <- with_world (fun w => inr (JSON_stringify w (error_payload "Not found"))) ;;
      end_ payload.

End Handler.

(** One request on a fresh connection. *)
Definition serve (w : World) (req : IncomingMessage) : Result unit * Conn * list Event :=
  requestListener req w fresh_conn.

Definition response_of (out : Result unit * Conn * list Event) : ServerResponse :=
  res (snd (fst out)).

(** ** A streaming connection over time *)

(** Time is in milliseconds.  While the interval timer is set, its
    callback runs at [due], [due + period], ... ; [run_timers] runs the
    callbacks due strictly before [until]. *)
Fixpoint run_timers (fuel : nat) (w : World) (due until : Z)
         (st : Conn * list Event) : Conn * list Event :=
  match fuel with
  | O => st
  | S fuel' =>
      match heartbeatInterval (fst st) with
      | None => st
      | Some period =>
          if due <? until then
            match heartbeat_callback w (fst st) with
            | (_, c', t') =>
                run_timers fuel' w (due + period) until (c', (snd st ++ t')%list)
            end
          else st
      end
  end.

(** A connection opened by [req] at time 0 and closed by the peer at
    time [duration]. *)
Definition connection (w : World) (req : IncomingMessage) (duration : Z)
  : Conn * list Event :=
  match requestListener req w fresh_conn with
  | (_, c, t) =>
      let st :=
        match heartbeatInterval c with
        | Some period => run_timers (Z.to_nat duration) w period duration (c, t)
        | None => (c, t)
        end in
      if closeListener (fst st) then
        match close_listener w (fst st) with
        | (_, c', t') => (c', (snd st ++ t')%list)
        end
      else st
  end.

Definition GET (u : string) : IncomingMessage :=
  {| method := "GET"; url := u; chunks := [] |}.

Definition POST (u : string) (body : list string) : IncomingMessage :=
  {| method := "POST"; url := u; chunks := body |}.

Definition count_chunk (s : string) (l : list string) : nat :=
  List.length (filter (String.eqb s) l).

(** ** Vocabulary of the statements *)

Definition KEY_MISSING : JsError :=
  Error "COINMARKETCAP_API_KEY not found in environment variables".

Definition ALL_FAILED : JsError := Error "Failed to fetch Bitcoin price".

(** The credential as the [if (!apiKey)] test sees it. *)
Definition usable_key (w : World) : option string :=
  match COINMARKETCAP_API_KEY w with
  | None | Some EmptyString => None
  | Some key => Some key
  end.

(** The connection as the handler finds it after the three CORS
    headers. *)
Definition cors_headers : list (string * string) :=
  [("Access-Control-Allow-Origin", "*");
   ("Access-Control-Allow-Methods", "OPTIONS, POST, GET");
   ("Access-Control-Allow-Headers", "Content-Type")].

Definition cors_conn : Conn :=
  {| res := {| outHeaders := cors_headers; statusCode := 200;
               header_stored := false; written := []; finished := false |};
     heartbeatInterval := None; closeListener := false |}.

(** The connection after [res.writeHead(status, json_type)] and
    [res.end(JSON.stringify(payload))] on [cors_conn]. *)
Definition responded (w : World) (status : Z) (payload : Value) : Conn :=
  {| res := {| outHeaders := (cors_headers ++ json_type)%list;
               statusCode := status;
               header_stored := true;
               written := match JSON_stringify w payload with
                          | Some s => [s]
                          | None => []
                          end;
               finished := true |};
     heartbeatInterval := None; closeListener := false |}.

(** The connection after [res.writeHead(status, json_type)] alone. *)
Definition head_only (status : Z) : Conn :=
  {| res := {| outHeaders := (cors_headers ++ json_type)%list;
               statusCode := status;
               header_stored := true;
               written := [];
               finished := false |};
     heartbeatInterval := None; closeListener := false |}.

Definition processing_error (e : JsError) : Event :=
  ConsoleError [LStr "Error processing request:"; LErr e].

Definition received (request : Value) : Event :=
  ConsoleLog [LStr "Received request:"; LVal request].

Definition quoted (s : string) : string := String dquote (s ++ String dquote EmptyString).

(** The text [{"error":{"message":<msg>}}]. *)
Definition error_body (msg : string) : string :=
  "{" ++ quoted "error" ++ ":{" ++ quoted "message" ++ ":"
      ++ QuoteJSONString msg ++ "}}".

(** The connection right after [GET /events] was handled. *)
Definition stream_conn (chunks : list string) (timer : option Z) : Conn :=
  {| res := {| outHeaders := (cors_headers ++
                 [("Content-Type", "text/event-stream");
                  ("Cache-Control", "no-cache");
                  ("Connection", "keep-alive")])%list;
               statusCode := 200;
               header_stored := true;
               written := chunks;
               finished := false |};
     heartbeatInterval := timer;
     closeListener := true |}.

Definition discovery_event (schema : string) : string :=
  "data: " ++ schema ++ newline ++ newline.

(** The number of instants [due], [due + period], ... before [until]. *)
Definition firings (due period until : Z) : nat :=
  Z.to_nat ((until - due + period - 1) / period).

(** ** Reading a rendered number *)

Definition is_digit (c : ascii) : bool :=
  let n := N_of_ascii c in ((48 <=? n) && (n <=? 57))%N.

Fixpoint all_digits (s : string) : bool :=
  match s with
  | EmptyString => true
  | String c rest => is_digit c && all_digits rest
  end.

(** One or more digits, a point, and exactly two digits. *)
Fixpoint int_then_fraction (s : string) : bool :=
  match s with
  | EmptyString => false
  | String c rest =>
      is_digit c &&
      match rest with
      | EmptyString => false
      | String c' frac =>
          if Ascii.eqb c' "."%char
          then (String.length frac =? 2)%nat && all_digits frac
          else int_then_fraction rest
      end
  end.

(** An optional minus sign, then digits with exactly two fraction
    digits. *)
Definition two_fraction_digits (s : string) : bool :=
  match s with
  | EmptyString => false
  | String c rest =>
      if Ascii.eqb c "-"%char then int_then_fraction rest
      else int_then_fraction s
  end.

(** The doubles that [toFixed] renders in fixed notation. *)
Definition finite_below_1e21 (x : spec_float) : bool :=
  match x with
  | S754_zero _ => true
  | S754_finite _ m e => negb (ge_1e21 m e)
  | _ => false
  end.

(** ** Reading a server-sent event *)

(** The text of an event's single [data] line, as a client reads it
    from a chunk of the form [data: <text>] followed by a blank line. *)
Fixpoint until_blank_line (s : string) : option string :=
  match s with
  | EmptyString => None
  | String c rest =>
      if Ascii.eqb c "010"%char then
        match rest with
        | String c' EmptyString => if Ascii.eqb c' "010"%char then Some EmptyString else None
        | _ => None
        end
      else if Ascii.eqb c "013"%char then None
      else option_map (String c) (until_blank_line rest)
  end.

Definition sse_event_data (chunk : string) : option string :=
  if String.prefix "data: " chunk
  then until_blank_line (substring 6 (String.length chunk - 6) chunk)
  else None.

(** ** Reading a JSON string literal *)

Definition hex_value (c : ascii) : N :=
  let n := N_of_ascii c in
  if (n <? 58)%N then (n - 48)%N else (n - 87)%N.

(** The characters of a string literal, up to its closing quote, with
    the escapes of [QuoteJSONString] undone. *)
Fixpoint unquote_chars (s : string) : string :=
  match s with
  | EmptyString => EmptyString
  | String c rest =>
      if Ascii.eqb c dquote then EmptyString
      else if Ascii.eqb c backslash then
        match rest with
        | String "b"%char r => String "008"%char (unquote_chars r)
        | String "t"%char r => String "009"%char (unquote_chars r)
        | String "n"%char r => String "010"%char (unquote_chars r)
        | String "f"%char r => String "012"%char (unquote_chars r)
        | String "r"%char r => String "013"%char (unquote_chars r)
        | String "u"%char (String _ (String _ (String h (String l r)))) =>
            String (ascii_of_N (16 * hex_value h + hex_value l)) (unquote_chars r)
        | String c' r => String c' (unquote_chars r)
        | EmptyString => EmptyString
        end
      else String c (unquote_chars rest)
  end.

(** ** The numbers behind a record *)

(** The number a provider's payload holds under a field. *)
Definition CMC_upstream (data : Value) (field : string) : Result Value :=
  let* d := get_prop data "data" in
  let* btcData := get_prop d "BTC" in
  quote_USD btcData field.

Definition CoinGecko_upstream (data : Value) (field : string) : Result Value :=
  let* btcData := get_prop data "bitcoin" in
  get_prop btcData field.

(** The record [r] was built from the reply of the provider named in
    its [source], and [p], [c], [m] are the numbers of that reply. *)
Definition answered_with (w : World) (r : PriceRecord) (p c m : spec_float) : Prop :=
  (source r = "CoinMarketCap" /\
   exists key data,
     usable_key w = Some key /\
     axios_get w (CMC_request key) = inr data /\
     CMC_upstream data "price" = inr (VNum p) /\
     CMC_upstream data "percent_change_24h" = inr (VNum c) /\
     CMC_upstream data "market_cap" = inr (VNum m)) \/
  (source r = "CoinGecko" /\
   exists data,
     axios_get w CoinGecko_request = inr data /\
     CoinGecko_upstream data "usd" = inr (VNum p) /\
     CoinGecko_upstream data "usd_24h_change" = inr (VNum c) /\
     CoinGecko_upstream data "usd_market_cap" = inr (VNum m)).

(** ** Sample worlds *)

(** Request bodies, written without string escapes:
    [{"name":"get-bitcoin-price","arguments":{}}] and so on. *)
Definition body_of_name (name_json args_json : string) : string :=
  "{" ++ quoted "name" ++ ":" ++ name_json ++ "," ++ quoted "arguments" ++ ":" ++ args_json ++ "}".

Definition body_price : string := body_of_name (quoted "get-bitcoin-price") "{}".
Definition body_price_args : string :=
  body_of_name (quoted "get-bitcoin-price") ("{" ++ quoted "currency" ++ ":" ++ quoted "EUR" ++ "}").
Definition body_unknown : string := body_of_name (quoted "not-a-real-tool") "{}".
Definition body_object_name : string :=
  body_of_name ("{" ++ quoted "toString" ++ ":1}") "{}".
Definition body_null : string := "null".
Definition body_garbage : string := "{oops".

Definition one : spec_float := S754_finite false 1 0.

(** [JSON.parse] on the bodies above; any other text is taken to be
    unparsable. *)
Definition sample_parse (body : string) : Result Value :=
  if String.eqb body body_price then
    inr (VObj [("name", VStr "get-bitcoin-price"); ("arguments", VObj [])])
  else if String.eqb body body_price_args then
    inr (VObj [("name", VStr "get-bitcoin-price");
               ("arguments", VObj [("currency", VStr "EUR")])])
  else if String.eqb body body_unknown then
    inr (VObj [("name", VStr "not-a-real-tool"); ("arguments", VObj [])])
  else if String.eqb body body_object_name then
    inr (VObj [("name", VObj [("toString", VNum one)]); ("arguments", VObj [])])
  else if String.eqb body body_null then inr VNull
  else inl (mkJsError SyntaxError_ "Unexpected token o in JSON at position 1").

(** The double nearest to 43000.1, and other upstream numbers. *)
Definition d43000_1 : spec_float := S754_finite false 5909888743191347 (-37).
Definition minus_1_25 : spec_float := S754_finite true 5 (-2).
Definition d850e9 : spec_float := S754_finite false 850000000000 0.
Definition d1700000000 : spec_float := S754_finite false 1700000000 0.
Definition d1e21 : spec_float := S754_finite false 476837158203125 21.

Definition cmc_payload : Value :=
  VObj [("data", VObj [("BTC", VObj [("quote", VObj [("USD", VObj [
    ("price", VNum d43000_1);
    ("percent_change_24h", VNum minus_1_25);
    ("market_cap", VNum d850e9);
    ("last_updated", VStr "2023-11-14T22:13:20.000Z")])])])])].

Definition gecko_payload (usd : spec_float) : Value :=
  VObj [("bitcoin", VObj [
    ("usd", VNum usd);
    ("usd_market_cap", VNum d850e9);
    ("usd_24h_change", VNum minus_1_25);
    ("last_updated_at", VNum d1700000000)])].

Definition sample_date (v : Value) : Result string :=
  match v with
  | VNum (S754_finite false 1700000000 0) => inr "2023-11-14T22:13:20.000Z"
  | _ => inl (mkJsError RangeError_ "Invalid time value")
  end.

Definition network_error : JsError := mkJsError AxiosError_ "Network Error".

(** A network on which only the listed URLs answer. *)
Definition network (cmc gecko : option Value) (rq : AxiosRequest) : Result Value :=
  if String.eqb (rq_url rq) CMC_URL then
    match cmc with Some v => inr v | None => inl network_error end
  else if String.eqb (rq_url rq) COINGECKO_URL then
    match gecko with Some v => inr v | None => inl network_error end
  else inl network_error.

(** The renderings of [Number::toString] that the runs below need: the
    digits of an integer below [2^53], and 1e+21 for [10^21]. *)
Definition sample_number (m : positive) (e : Z) : string :=
  if e =? 0 then decimal_digits (Z.pos m)
  else if (Z.pos m =? 476837158203125) && (e =? 21) then "1e+21"
  else EmptyString.

Definition sample_world (key : option string) (cmc gecko : option Value) : World :=
  {| COINMARKETCAP_API_KEY := key;
     axios_get := network cmc gecko;
     JSON_parse := sample_parse;
     Number_toString_finite := sample_number;
     Date_toISOString := sample_date |}.

(** The primary provider answers. *)
Definition world_primary : World :=
  sample_world (Some "test-key") (Some cmc_payload) (Some (gecko_payload d43000_1)).

(** No credential is configured; the secondary provider answers. *)
Definition world_no_key : World :=
  sample_world None (Some cmc_payload) (Some (gecko_payload d43000_1)).

(** The credential is there and no provider can be reached. *)
Definition world_down : World := sample_world (Some "test-key") None None.

(** The secondary provider sends a price that reads as infinity, as
    the JSON number [1e999] does. *)
Definition world_infinite : World :=
  sample_world None None (Some (gecko_payload (S754_infinity false))).

(** A payload without the [data] member. *)
Definition empty_payload : Value := VObj [].

Definition world_malformed : World :=
  sample_world (Some "test-key") (Some empty_payload) (Some empty_payload).

Definition sample_primary_record : PriceRecord :=
  {| price := "43000.10";
     percent_change_24h := "-1.25";
     market_cap := "850000000000.00";
     last_updated := VStr "2023-11-14T22:13:20.000Z";
     source := "CoinMarketCap" |}.

Definition sample_secondary_record : PriceRecord :=
  {| price := "43000.10";
     percent_change_24h := "-1.25";
     market_cap := "850000000000.00";
     last_updated := VStr "2023-11-14T22:13:20.000Z";
     source := "CoinGecko" |}.

(** The connection after the preflight answer. *)
Definition preflight_conn : Conn :=
  {| res := {| outHeaders := cors_headers; statusCode := 204;
               header_stored := true; written := []; finished := true |};
     heartbeatInterval := None; closeListener := false |}.

Definition received_request (req : IncomingMessage) : Event :=
  ConsoleLog [LStr ("Received " ++ method req ++ " request for " ++ url req)].

Definition is_route (m u : string) (req : IncomingMessage) : bool :=
  String.eqb (method req) m && String.eqb (url req) u.

Definition healthy : Value := VObj [("status", VStr "healthy")].






(** [JSON.parse] on a few more bodies. *)
Definition sample_parse_shapes (body : string) : Result Value :=
  if String.eqb body "{}" then inr (VObj [])
  else if String.eqb body "[]" then inr (VArr [])
  else if String.eqb body "42" then inr (VNum (S754_finite false 42 0))
  else sample_parse body.

Definition world_shapes : World :=
  {| COINMARKETCAP_API_KEY := Some "test-key";
     axios_get := network (Some cmc_payload) None;
     JSON_parse := sample_parse_shapes;
     Number_toString_finite := sample_number;
     Date_toISOString := sample_date |}.

Definition digit_value (c : ascii) : Z := Z.of_N (N_of_ascii c) - 48.

(** The number that a string of digits denotes, after the digits
    already read as [acc]. *)
Fixpoint digits_value (acc : Z) (s : string) : option Z :=
  match s with
  | EmptyString => Some acc
  | String c rest =>
      if is_digit c then digits_value (10 * acc + digit_value c) rest else None
  end.

(** Digits, a point and two digits, read as a number of hundredths. *)
Fixpoint read_hundredths_from (acc : Z) (s : string) : option Z :=
  match s with
  | EmptyString => None
  | String c rest =>
      if Ascii.eqb c "."%char then
        match rest with
        | String _ (String _ EmptyString) => digits_value acc rest
        | _ => None
        end
      else if is_digit c then read_hundredths_from (10 * acc + digit_value c) rest
      else None
  end.

(** The same with an optional minus sign. *)
Definition read_hundredths (s : string) : option Z :=
  match s with
  | EmptyString => None
  | String c rest =>
      if Ascii.eqb c "-"%char then option_map Z.opp (read_hundredths_from 0 rest)
      else read_hundredths_from 0 s
  end.

(** The text reads as the number of hundredths nearest to the double
    [x]: it is off by half a hundredth at most. *)
Definition within_half_a_hundredth (text : string) (x : spec_float) : Prop :=
  match x with
  | S754_zero _ => read_hundredths text = Some 0
  | S754_finite s m e =>
      exists n : Z,
        0 <= n /\
        read_hundredths text = Some (if s then - n else n) /\
        2 * Z.abs (n * 2 ^ Z.max 0 (- e) - 100 * Z.pos m * 2 ^ Z.max 0 e)
        <= 2 ^ Z.max 0 (- e)
  | _ => False
  end.

(** ** The command-line mode *)

(** The escape sequences of [colors]. *)
Definition ESC : ascii := "027"%char.
Definition colors_reset : string := String ESC "[0m".
Definition colors_bright : string := String ESC "[1m".
Definition colors_green : string := String ESC "[32m".
Definition colors_red : string := String ESC "[31m".
Definition colors_yellow : string := String ESC "[33m".
Definition colors_blue : string := String ESC "[34m".
Definition colors_cyan : string := String ESC "[36m".

(** What the command-line mode asks of the engine besides the world of
    the lookup: [parseFloat] on a text, and [new Date(v).toLocaleString()]
    on a primitive [v], whose text depends on the locale and the time
    zone of the terminal (an invalid date has a text too). *)
Record Terminal : Type := mkTerminal {
  parseFloat : string -> spec_float;
  Date_toLocaleString : Value -> string
}.

(** [x >= y] on numbers: false when either is NaN, and the two zeros
    are equal. *)
Definition Number_ge (x y : spec_float) : bool :=
  match SFcompare x y with
  | Some Gt | Some Eq => true
  | _ => false
  end.

(** The double [1e9], and division of doubles. *)
Definition d1e9 : spec_float := S754_finite false 8388608000000000 (-23).

Definition Number_div (x y : spec_float) : spec_float := SFdiv 53 1024 x y.

(** [new Date(v).toLocaleString()]: an object or an array is first
    converted to a primitive, here the string of [ToString], and that
    conversion can throw. *)
Definition new_Date_toLocaleString (tm : Terminal) (w : World) (v : Value)
  : Result string :=
  match v with
  | VArr _ | VObj _ =>
      let* text := ToString w v in inr (Date_toLocaleString tm (VStr text))
  | _ => inr (Date_toLocaleString tm v)
  end.

Definition displayBitcoinPrice (tm : Terminal) (data : PriceRecord) : Eff unit :=
  (console_log [LStr (newline ++ colors_bright ++ colors_yellow
                      ++ "Bitcoin (BTC) Price Information" ++ colors_reset
                      ++ newline)] ;;
   console_log [LStr (colors_bright ++ "Price:" ++ colors_reset ++ " "
                      ++ colors_green ++ "$" ++ price data ++ " USD"
                      ++ colors_reset)] ;;
   let percentChangeColor :=
     if Number_ge (parseFloat tm (percent_change_24h data)) (S754_zero false)
     then colors_green else colors_red in
   let percentChangePrefix :=
     if Number_ge (parseFloat tm (percent_change_24h data)) (S754_zero false)
     then "+" else EmptyString in
   console_log [LStr (colors_bright ++ "24h Change:" ++ colors_reset ++ " "
                      ++ percentChangeColor ++ percentChangePrefix
                      ++ percent_change_24h data ++ "%" ++ colors_reset)] ;;
   billions <- ask (fun w =>
     Number_toFixed w 2 (Number_div (parseFloat tm (market_cap data)) d1e9)) ;;
   console_log [LStr (colors_bright ++ "Market Cap:" ++ colors_reset ++ " $"
                      ++ billions ++ " Billion USD")] ;;
   date <- with_world_eff (fun w =>
     new_Date_toLocaleString tm w (last_updated data)) ;;
   console_log [LStr (colors_bright ++ "Last Updated:" ++ colors_reset ++ " "
                      ++ date)] ;;
   console_log [LStr (colors_bright ++ "Data Source:" ++ colors_reset ++ " "
                      ++ colors_cyan ++ source data ++ colors_reset
                      ++ newline)])%eff.

(** The branch without [--mcp-server].  The result is the exit status
    of the process: 1 after [process.exit(1)], and 0 when the promise
    chain settles without it. *)
Definition cli (tm : Terminal) : Eff Z :=
  (console_log [LStr "Fetching Bitcoin price data..."] ;;
   try_catch
     (data <- getBitcoinPrice ;;
      displayBitcoinPrice tm data ;;
      ret 0)
     (fun error =>
        console_error [LStr (colors_red ++ "Error:" ++ colors_reset ++ " "
                             ++ message error)] ;;
        ret 1))%eff.

Definition fetching : Event := ConsoleLog [LStr "Fetching Bitcoin price data..."].

(** The line that reports a failure of the command-line mode. *)
Definition error_line (msg : string) : Event :=
  ConsoleError [LStr (colors_red ++ "Error:" ++ colors_reset ++ " " ++ msg)].

(** A terminal for the sample runs. *)
Definition sample_parseFloat (text : string) : spec_float :=
  if String.eqb text "-0.00" then S754_zero true
  else if String.eqb text "-1.25" then S754_finite true 5629499534213120 (-52)
  else if String.eqb text "850000000000.00"
       then S754_finite false 6963200000000000 (-13)
  else if String.eqb text "43000.10" then d43000_1
  else S754_nan.

Definition sample_locale (v : Value) : string :=
  match v with
  | VStr "2023-11-14T22:13:20.000Z" => "11/14/2023, 10:13:20 PM"
  | _ => "Invalid Date"
  end.

Definition sample_terminal : Terminal :=
  {| parseFloat := sample_parseFloat; Date_toLocaleString := sample_locale |}.

(** The primary provider sends an object as [last_updated]. *)
Definition cmc_payload_object_date : Value :=
  VObj [("data", VObj [("BTC", VObj [("quote", VObj [("USD", VObj [
    ("price", VNum d43000_1);
    ("percent_change_24h", VNum minus_1_25);
    ("market_cap", VNum d850e9);
    ("last_updated", VObj [("toString", VNum one)])])])])])].

Definition world_object_date : World :=
  sample_world (Some "test-key") (Some cmc_payload_object_date) None.

(** The primary provider reports a loss of a thousandth of a percent. *)
Definition minus_0_001 : spec_float := S754_finite true 4611686018427388 (-62).

Definition cmc_payload_small_loss : Value :=
  VObj [("data", VObj [("BTC", VObj [("quote", VObj [("USD", VObj [
    ("price", VNum d43000_1);
    ("percent_change_24h", VNum minus_0_001);
    ("market_cap", VNum d850e9);
    ("last_updated", VStr "2023-11-14T22:13:20.000Z")])])])])].

Definition world_small_loss : World :=
  sample_world (Some "test-key") (Some cmc_payload_small_loss) None.

(** The lines of the display, one per [console.log]. *)
Definition heading_line : Event :=
  ConsoleLog [LStr (newline ++ colors_bright ++ colors_yellow
                    ++ "Bitcoin (BTC) Price Information" ++ colors_reset
                    ++ newline)].

Definition price_line (text : string) : Event :=
  ConsoleLog [LStr (colors_bright ++ "Price:" ++ colors_reset ++ " "
                    ++ colors_green ++ "$" ++ text ++ " USD" ++ colors_reset)].

Definition change_line (colour prefix text : string) : Event :=
  ConsoleLog [LStr (colors_bright ++ "24h Change:" ++ colors_reset ++ " "
                    ++ colour ++ prefix ++ text ++ "%" ++ colors_reset)].

Definition market_cap_line (billions : string) : Event :=
  ConsoleLog [LStr (colors_bright ++ "Market Cap:" ++ colors_reset ++ " $"
                    ++ billions ++ " Billion USD")].

Definition last_updated_line (date : string) : Event :=
  ConsoleLog [LStr (colors_bright ++ "Last Updated:" ++ colors_reset ++ " "
                    ++ date)].

Definition source_line (name : string) : Event :=
  ConsoleLog [LStr (colors_bright ++ "Data Source:" ++ colors_reset ++ " "
                    ++ colors_cyan ++ name ++ colors_reset ++ newline)].

(** The four lines printed before the date is converted. *)
Definition lines_before_date (tm : Terminal) (w : World) (r : PriceRecord)
  : list Event :=
  let gain := Number_ge (parseFloat tm (percent_change_24h r)) (S754_zero false) in
  [heading_line;
   price_line (price r);
   change_line (if gain then colors_green else colors_red)
               (if gain then "+" else EmptyString)
               (percent_change_24h r);
   market_cap_line
     (Number_toFixed w 2 (Number_div (parseFloat tm (market_cap r)) d1e9))].

(** The request is a [POST /execute] whose body parses to a value with
    the tool's name under [name]. *)
Definition invokes_the_tool (w : World) (req : IncomingMessage) : bool :=
  is_route "POST" "/execute" req &&
  match JSON_parse w (String.concat EmptyString (chunks req)) with
  | inr request =>
      match get_prop request "name" with
      | inr name => strict_eq_string name "get-bitcoin-price"
      | inl _ => false
      end
  | inl _ => false
  end.

(** * Properties *)

(** ** Strings *)

Lemma append_assoc (a b c : string) : (a ++ b) ++ c = a ++ (b ++ c).
Proof. induction a as [|x a IH]; simpl; [|rewrite IH]; reflexivity. Qed.

Lemma length_append (a b : string) :
  String.length (a ++ b) = (String.length a + String.length b)%nat.
Proof. induction a as [|x a IH]; simpl; [|rewrite IH]; reflexivity. Qed.

(** ** The providers *)

Lemma CMC_try_unfold (w : World) :
  CMC_try w =
  match usable_key w with
  | None => (inl KEY_MISSING, [])
  | Some key =>
      (match axios_get w (CMC_request key) with
       | inl e => inl e
       | inr data => CMC_record w data
       end, [AxiosGet (CMC_request key)])
  end.
Proof.
  unfold CMC_try, usable_key, bind, ask, throw, axios_get_data, with_world_eff.
  destruct (COINMARKETCAP_API_KEY w) as [[|a k]|]; try reflexivity.
  destruct (axios_get w (CMC_request (String a k))); reflexivity.
Qed.

Lemma CoinGecko_try_unfold (w : World) :
  CoinGecko_try w =
  (match axios_get w CoinGecko_request with
   | inl e => inl e
   | inr data => CoinGecko_record w data
   end, [AxiosGet CoinGecko_request]).
Proof.
  unfold CoinGecko_try, bind, axios_get_data, with_world_eff.
  destruct (axios_get w CoinGecko_request); reflexivity.
Qed.

(** A provider function returns what its [try] block returns, and
    rethrows what it throws after one line on the console. *)
Lemma rethrow_unfold {A} (m : Eff A) (label : string) (w : World) :
  try_catch m
    (fun error => bind (console_error [LStr label; LStr (message error)])
                       (fun _ => throw error)) w =
  match fst (m w) with
  | inr a => (inr a, snd (m w))
  | inl e => (inl e, (snd (m w) ++ [ConsoleError [LStr label; LStr (message e)]])%list)
  end.
Proof.
  unfold try_catch, bind, console_error, emit, throw.
  destruct (m w) as [[e|a] t]; reflexivity.
Qed.

Lemma getBitcoinPriceFromCMC_unfold (w : World) :
  getBitcoinPriceFromCMC w =
  match fst (CMC_try w) with
  | inr r => (inr r, snd (CMC_try w))
  | inl e => (inl e, (snd (CMC_try w)
                ++ [ConsoleError [LStr "CoinMarketCap API error:"; LStr (message e)]])%list)
  end.
Proof. apply rethrow_unfold. Qed.

Lemma getBitcoinPriceFromCoinGecko_unfold (w : World) :
  getBitcoinPriceFromCoinGecko w =
  match fst (CoinGecko_try w) with
  | inr r => (inr r, snd (CoinGecko_try w))
  | inl e => (inl e, (snd (CoinGecko_try w)
                ++ [ConsoleError [LStr "CoinGecko API error:"; LStr (message e)]])%list)
  end.
Proof. apply rethrow_unfold. Qed.

Lemma getBitcoinPrice_unfold (w : World) :
  getBitcoinPrice w =
  match fst (getBitcoinPriceFromCMC w) with
  | inr r => (inr r, snd (getBitcoinPriceFromCMC w))
  | inl _ =>
      (match fst (getBitcoinPriceFromCoinGecko w) with
       | inr r => inr r
       | inl _ => inl ALL_FAILED
       end,
       (snd (getBitcoinPriceFromCMC w)
        ++ ConsoleLog [LStr "Falling back to CoinGecko API..."]
        :: snd (getBitcoinPriceFromCoinGecko w)
        ++ match fst (getBitcoinPriceFromCoinGecko w) with
           | inr _ => []
           | inl _ => [ConsoleError [LStr "All API attempts failed"]]
           end)%list)
  end.
Proof.
  unfold getBitcoinPrice, try_catch at 1.
  destruct (getBitcoinPriceFromCMC w) as [[e|r] t]; [|reflexivity].
  unfold bind, console_log, console_error, emit, try_catch, throw. simpl.
  destruct (getBitcoinPriceFromCoinGecko w) as [[e'|r'] t']; simpl;
    rewrite ?app_nil_r; reflexivity.
Qed.

Lemma CMC_record_source (w : World) (data : Value) (r : PriceRecord) :
  CMC_record w data = inr r -> source r = "CoinMarketCap".
Proof.
  unfold CMC_record, rbind. intros H.
  repeat match type of H with
         | match ?x with _ => _ end = _ => destruct x; try discriminate
         end.
  injection H as <-. reflexivity.
Qed.

Lemma CoinGecko_record_source (w : World) (data : Value) (r : PriceRecord) :
  CoinGecko_record w data = inr r -> source r = "CoinGecko".
Proof.
  unfold CoinGecko_record, rbind. intros H.
  repeat match type of H with
         | match ?x with _ => _ end = _ => destruct x; try discriminate
         end.
  injection H as <-. reflexivity.
Qed.

Lemma calls_to_app (u : string) (t1 t2 : list Event) :
  calls_to u (t1 ++ t2) = (calls_to u t1 + calls_to u t2)%nat.
Proof. unfold calls_to. rewrite filter_app, length_app. reflexivity. Qed.

(** The events of each provider function, counted per URL. *)
Lemma CMC_calls (w : World) :
  calls_to COINGECKO_URL (snd (getBitcoinPriceFromCMC w)) = 0%nat /\
  calls_to CMC_URL (snd (getBitcoinPriceFromCMC w)) =
    match usable_key w with Some _ => 1%nat | None => 0%nat end.
Proof.
  rewrite getBitcoinPriceFromCMC_unfold, CMC_try_unfold.
  destruct (usable_key w) as [key|]; simpl.
  - destruct (match axios_get w (CMC_request key) with
              | inl e => inl e | inr data => CMC_record w data end);
      split; reflexivity.
  - split; reflexivity.
Qed.

Lemma CoinGecko_calls (w : World) :
  calls_to COINGECKO_URL (snd (getBitcoinPriceFromCoinGecko w)) = 1%nat /\
  calls_to CMC_URL (snd (getBitcoinPriceFromCoinGecko w)) = 0%nat.
Proof.
  rewrite getBitcoinPriceFromCoinGecko_unfold, CoinGecko_try_unfold. simpl.
  destruct (match axios_get w CoinGecko_request with
            | inl e => inl e | inr data => CoinGecko_record w data end);
    split; reflexivity.
Qed.


(** ** The request handler on [POST /execute] *)

Lemma serve_execute (w : World) (body : list string) :
  serve w (POST "/execute" body) =
  match execute_end (String.concat EmptyString body) w cors_conn with
  | (r, c, t) => (r, c, ConsoleLog [LStr "Received POST request for /execute"] :: t)
  end.
Proof.
  unfold serve, requestListener, POST.
  cbn -[execute_end]. fold cors_headers. fold cors_conn.
  destruct (execute_end (concat EmptyString body) w cors_conn) as [[r c] t].
  reflexivity.
Qed.

(** Every path through the listener of the [end] event. *)
Lemma execute_end_unfold (w : World) (body : string) :
  execute_end body w cors_conn =
  match JSON_parse w body with
  | inl e =>
      (inr tt, responded w 500 (error_payload (message e)), [processing_error e])
  | inr request =>
      match get_prop request "name" with
      | inl e =>
          (inr tt, responded w 500 (error_payload (message e)),
           [received request; processing_error e])
      | inr name =>
          if strict_eq_string name "get-bitcoin-price" then
            match getBitcoinPrice w with
            | (inr r, t) =>
                (inr tt, responded w 200 (VObj [("result", PriceRecord_value r)]),
                 received request :: t)
            | (inl e, t) =>
                (inr tt, responded w 500 (error_payload (message e)),
                 received request :: t ++ [processing_error e])
            end
          else
            match ToString w name with
            | inr text =>
                (inr tt, responded w 400 (error_payload ("Unknown tool: " ++ text)),
                 [received request])
            | inl e =>
                (inl (HEADERS_SENT "write"), head_only 400,
                 [received request; processing_error e])
            end
      end
  end.
Proof.
  unfold execute_end, stry_catch, sbind, with_world, liftE, slog, serror,
    console_log, console_error, emit, responded, head_only,
    processing_error, received.
  destruct (JSON_parse w body) as [e|request].
  - cbn -[JSON_stringify]. destruct (JSON_stringify w _); reflexivity.
  - cbn -[getBitcoinPrice ToString strict_eq_string get_prop JSON_stringify].
    destruct (get_prop request "name") as [e|name].
    + cbn -[JSON_stringify]. destruct (JSON_stringify w _); reflexivity.
    + destruct (strict_eq_string name "get-bitcoin-price").
      * destruct (getBitcoinPrice w) as [[e|r] t]; cbn -[JSON_stringify];
          destruct (JSON_stringify w _); rewrite ?app_nil_r; reflexivity.
      * cbn -[ToString JSON_stringify].
        destruct (ToString w name); cbn -[JSON_stringify];
          try destruct (JSON_stringify w _); reflexivity.
Qed.


Lemma stringify_error_payload (w : World) (msg : string) :
  JSON_stringify w (error_payload msg) = Some (error_body msg).
Proof.
  unfold JSON_stringify, error_payload, error_body, QuoteJSONString, quoted.
  simpl. rewrite !append_assoc. reflexivity.
Qed.

(** ** Fallback between the providers *)

Lemma CMC_success_source (w : World) (r : PriceRecord) :
  fst (getBitcoinPriceFromCMC w) = inr r -> source r = "CoinMarketCap".
Proof.
  rewrite getBitcoinPriceFromCMC_unfold, CMC_try_unfold.
  destruct (usable_key w) as [key|]; simpl; [|discriminate].
  destruct (axios_get w (CMC_request key)) as [e|data]; simpl; [discriminate|].
  destruct (CMC_record w data) as [e|r'] eqn:E; simpl; [discriminate|].
  intros [= <-]. eapply CMC_record_source; eauto.
Qed.

Lemma CoinGecko_success_source (w : World) (r : PriceRecord) :
  fst (getBitcoinPriceFromCoinGecko w) = inr r -> source r = "CoinGecko".
Proof.
  rewrite getBitcoinPriceFromCoinGecko_unfold, CoinGecko_try_unfold. simpl.
  destruct (axios_get w CoinGecko_request) as [e|data]; simpl; [discriminate|].
  destruct (CoinGecko_record w data) as [e|r'] eqn:E; simpl; [discriminate|].
  intros [= <-]. eapply CoinGecko_record_source; eauto.
Qed.

(** C1: when the call to the primary provider succeeds, the lookup
    returns that very record, its source is "CoinMarketCap", the lookup
    adds no event of its own, and there is no call to the secondary
    provider among the events of the invocation. *)
Theorem C1_primary_success (w : World) (r : PriceRecord) :
  fst (getBitcoinPriceFromCMC w) = inr r ->
  fst (getBitcoinPrice w) = inr r /\
  source r = "CoinMarketCap" /\
  snd (getBitcoinPrice w) = snd (getBitcoinPriceFromCMC w) /\
  calls_to COINGECKO_URL (snd (getBitcoinPrice w)) = 0%nat.
Proof.
  intros H. rewrite getBitcoinPrice_unfold, H. simpl.
  repeat split.
  - now apply (CMC_success_source w).
  - apply CMC_calls.
Qed.

Lemma C1_primary_success_witness :
  fst (getBitcoinPrice world_primary) = inr sample_primary_record /\
  source sample_primary_record = "CoinMarketCap" /\
  snd (getBitcoinPrice world_primary) = snd (getBitcoinPriceFromCMC world_primary) /\
  calls_to COINGECKO_URL (snd (getBitcoinPrice world_primary)) = 0%nat.
Proof.
  apply (C1_primary_success world_primary sample_primary_record).
  reflexivity.
Defined.

(** C2: in every invocation each provider is called at most once; when
    the primary provider fails, for whatever reason, the secondary one
    is called exactly once, and if that call succeeds the lookup returns
    its record, whose source is "CoinGecko". *)
Theorem C2_fallback_to_secondary (w : World) :
  ((calls_to CMC_URL (snd (getBitcoinPrice w)) <= 1)%nat /\
   (calls_to COINGECKO_URL (snd (getBitcoinPrice w)) <= 1)%nat) /\
  forall e : JsError,
    fst (getBitcoinPriceFromCMC w) = inl e ->
    calls_to COINGECKO_URL (snd (getBitcoinPrice w)) = 1%nat /\
    forall r : PriceRecord,
      fst (getBitcoinPriceFromCoinGecko w) = inr r ->
      fst (getBitcoinPrice w) = inr r /\ source r = "CoinGecko".
Proof.
  pose proof (CMC_calls w) as [Hg Hc].
  pose proof (CoinGecko_calls w) as [Hg' Hc'].
  assert (Hend : forall u (o : Result PriceRecord),
             calls_to u match o with
                        | inr _ => []
                        | inl _ => [ConsoleError [LStr "All API attempts failed"]]
                        end = 0%nat)
    by (intros u [?|?]; reflexivity).
  rewrite getBitcoinPrice_unfold.
  destruct (fst (getBitcoinPriceFromCMC w)) as [e1|r1] eqn:E1; simpl.
  - rewrite !calls_to_app.
    change (ConsoleLog ?a :: ?t) with ([ConsoleLog a] ++ t)%list.
    rewrite !calls_to_app, Hc, Hg, Hc', Hg', !Hend. simpl.
    split.
    + split; [destruct (usable_key w)|]; lia.
    + intros e _. split; [reflexivity|].
      intros r Hr. rewrite Hr. split; [reflexivity|].
      now apply (CoinGecko_success_source w).
  - rewrite Hc, Hg. split.
    + split; [destruct (usable_key w)|]; lia.
    + intros e [=].
Qed.

Lemma C2_fallback_to_secondary_witness :
  fst (getBitcoinPriceFromCMC world_no_key) = inl KEY_MISSING /\
  calls_to COINGECKO_URL (snd (getBitcoinPrice world_no_key)) = 1%nat /\
  fst (getBitcoinPrice world_no_key) = inr sample_secondary_record /\
  source sample_secondary_record = "CoinGecko".
Proof.
  split; [reflexivity|].
  destruct (C2_fallback_to_secondary world_no_key) as [_ H].
  destruct (H KEY_MISSING eq_refl) as [H1 H2].
  split; [exact H1|].
  apply (H2 sample_secondary_record). reflexivity.
Defined.



(** ** JSON string literals read back *)

Lemma unquote_quote_char (c : ascii) (rest : string) :
  unquote_chars (quote_char c ++ rest) = String c (unquote_chars rest).
Proof.
  destruct c as [[] [] [] [] [] [] [] []]; reflexivity.
Qed.

Lemma unquote_quote_chars (s rest : string) :
  unquote_chars (quote_chars s ++ String dquote rest) = s.
Proof.
  induction s as [|c s IH]; simpl.
  - reflexivity.
  - rewrite append_assoc, unquote_quote_char, IH. reflexivity.
Qed.

Lemma quote_chars_inj (s1 s2 rest : string) :
  quote_chars s1 ++ String dquote rest = quote_chars s2 ++ String dquote rest ->
  s1 = s2.
Proof.
  intros H.
  rewrite <- (unquote_quote_chars s1 rest), <- (unquote_quote_chars s2 rest).
  now rewrite H.
Qed.

(** Two error bodies are the same text only for the same message. *)
Lemma error_body_inj (m1 m2 : string) : error_body m1 = error_body m2 -> m1 = m2.
Proof.
  unfold error_body, QuoteJSONString, quoted. simpl.
  rewrite !append_assoc. simpl.
  intros [= H]. now apply quote_chars_inj in H.
Qed.



(** ** Failures *)

Lemma getBitcoinPrice_failure (w : World) (e : JsError) :
  fst (getBitcoinPrice w) = inl e -> e = ALL_FAILED.
Proof.
  rewrite getBitcoinPrice_unfold.
  destruct (fst (getBitcoinPriceFromCMC w)); simpl; [|discriminate].
  destruct (fst (getBitcoinPriceFromCoinGecko w)); simpl; [|discriminate].
  now intros [= <-].
Qed.

(** The response of [POST /execute] in terms of the listener's paths. *)
Lemma serve_execute_unfold (w : World) (body : list string) :
  fst (serve w (POST "/execute" body)) =
  fst (execute_end (String.concat EmptyString body) w cors_conn).
Proof.
  rewrite serve_execute.
  destruct (execute_end (concat EmptyString body) w cors_conn) as [[r c] t].
  reflexivity.
Qed.

Lemma serve_execute_events (w : World) (body : list string) :
  snd (serve w (POST "/execute" body)) =
  ConsoleLog [LStr "Received POST request for /execute"]
  :: snd (execute_end (String.concat EmptyString body) w cors_conn).
Proof.
  rewrite serve_execute.
  destruct (execute_end (concat EmptyString body) w cors_conn) as [[r c] t].
  reflexivity.
Qed.

(** C3: when both providers fail, the lookup fails with the one error
    "Failed to fetch Bitcoin price", whatever the two providers threw,
    and a [POST /execute] for the tool is answered, with no exception
    leaving the listener, by status 500 and the JSON body
    [{"error":{"message":"Failed to fetch Bitcoin price"}}]. *)
Theorem C3_all_providers_failed (w : World) (e1 e2 : JsError) :
  fst (getBitcoinPriceFromCMC w) = inl e1 ->
  fst (getBitcoinPriceFromCoinGecko w) = inl e2 ->
  fst (getBitcoinPrice w) = inl ALL_FAILED /\
  forall (body : list string) (request : Value),
    JSON_parse w (String.concat EmptyString body) = inr request ->
    get_prop request "name" = inr (VStr "get-bitcoin-price") ->
    let out := serve w (POST "/execute" body) in
    fst (fst out) = inr tt /\
    statusCode (response_of out) = 500 /\
    finished (response_of out) = true /\
    written (response_of out) = [error_body "Failed to fetch Bitcoin price"].
Proof.
  intros H1 H2.
  assert (Hall : fst (getBitcoinPrice w) = inl ALL_FAILED)
    by (rewrite getBitcoinPrice_unfold, H1; simpl; rewrite H2; reflexivity).
  split; [exact Hall|].
  intros body request Hparse Hname out. subst out.
  unfold response_of. rewrite serve_execute_unfold, execute_end_unfold.
  rewrite Hparse, Hname. simpl strict_eq_string. cbv iota.
  destruct (getBitcoinPrice w) as [o t]. simpl in Hall. subst o.
  cbn [fst snd]. unfold responded. rewrite stringify_error_payload.
  repeat split; reflexivity.
Qed.

Lemma C3_all_providers_failed_witness :
  fst (getBitcoinPrice world_down) = inl ALL_FAILED /\
  fst (fst (serve world_down (POST "/execute" [body_price]))) = inr tt /\
  statusCode (response_of (serve world_down (POST "/execute" [body_price]))) = 500 /\
  finished (response_of (serve world_down (POST "/execute" [body_price]))) = true /\
  written (response_of (serve world_down (POST "/execute" [body_price])))
    = [error_body "Failed to fetch Bitcoin price"].
Proof.
  destruct (C3_all_providers_failed world_down network_error network_error
              eq_refl eq_refl) as [H1 H2].
  split; [exact H1|].
  apply (H2 [body_price]
            (VObj [("name", VStr "get-bitcoin-price"); ("arguments", VObj [])]));
    reflexivity.
Defined.

(** C4, as the code has it: a [POST /execute] whose body [JSON.parse]
    rejects is answered, with no exception leaving the listener, by
    status 500 (not a 4xx) and the JSON body [{"error":{"message":m}}]
    where [m] is the parser's own message.  An unknown-tool answer has
    status 400 instead, and the body is that of an unknown-tool or of
    the all-providers-failed answer exactly when [m] is the message of
    that answer. *)
Theorem C4_unparsable_body (w : World) (body : list string) (e : JsError) :
  JSON_parse w (String.concat EmptyString body) = inl e ->
  let out := serve w (POST "/execute" body) in
  fst (fst out) = inr tt /\
  statusCode (response_of out) = 500 /\
  finished (response_of out) = true /\
  written (response_of out) = [error_body (message e)] /\
  statusCode (response_of out) <> 400 /\
  (forall text : string,
     written (response_of out) = [error_body ("Unknown tool: " ++ text)]
     <-> message e = "Unknown tool: " ++ text) /\
  (written (response_of out) = [error_body "Failed to fetch Bitcoin price"]
   <-> message e = "Failed to fetch Bitcoin price").
Proof.
  intros Hparse out. subst out.
  unfold response_of. rewrite serve_execute_unfold, execute_end_unfold, Hparse.
  cbn [fst snd]. unfold responded. rewrite stringify_error_payload.
  cbn [res statusCode finished written].
  assert (Hbody : forall m, [error_body (message e)] = [error_body m] <-> message e = m).
  { intros m. split.
    - intros H. apply (f_equal (hd EmptyString)) in H. cbn [hd] in H.
      now apply error_body_inj.
    - intros ->. reflexivity. }
  repeat split; try reflexivity; try discriminate; apply Hbody.
Qed.

Lemma C4_unparsable_body_witness :
  JSON_parse world_primary (String.concat EmptyString [body_garbage])
    = inl (mkJsError SyntaxError_ "Unexpected token o in JSON at position 1") /\
  statusCode (response_of (serve world_primary (POST "/execute" [body_garbage]))) = 500 /\
  written (response_of (serve world_primary (POST "/execute" [body_garbage])))
    = [error_body "Unexpected token o in JSON at position 1"].
Proof.
  split; [reflexivity|].
  destruct (C4_unparsable_body world_primary [body_garbage]
              (mkJsError SyntaxError_ "Unexpected token o in JSON at position 1")
              eq_refl) as (_ & H1 & _ & H2 & _).
  split; [exact H1 | exact H2].
Defined.

(** C4 as the specification states it fails: the body [{oops] is not
    parseable and the status of the answer is 500, which is not a
    client-error status. *)
Lemma C4_counterexample :
  JSON_parse world_primary (String.concat EmptyString [body_garbage])
    = inl (mkJsError SyntaxError_ "Unexpected token o in JSON at position 1") /\
  ~ (400 <= statusCode (response_of (serve world_primary (POST "/execute" [body_garbage]))) <= 499).
Proof.
  split; [reflexivity|].
  vm_compute. intros [_ H]. apply H. reflexivity.
Qed.



(** C5, as the code has it: a provider function that fails rethrows
    the very error that occurred, after one line on the console.  A
    missing credential is a plain [Error] raised before any outbound
    call; a rejected call (no reply, or a status outside 2xx) is
    axios's own error; a payload of the wrong shape is the error of the
    statement that read it.  Nothing is turned into one uniform error
    class, and the raw error reaches the lookup, which replaces it:
    the lookup itself fails with nothing but "Failed to fetch Bitcoin
    price". *)
Theorem C5_provider_failures (w : World) :
  (usable_key w = None ->
   getBitcoinPriceFromCMC w =
     (inl KEY_MISSING,
      [ConsoleError [LStr "CoinMarketCap API error:"; LStr (message KEY_MISSING)]])) /\
  (forall key e,
     usable_key w = Some key ->
     axios_get w (CMC_request key) = inl e ->
     getBitcoinPriceFromCMC w =
       (inl e, [AxiosGet (CMC_request key);
                ConsoleError [LStr "CoinMarketCap API error:"; LStr (message e)]])) /\
  (forall key data e,
     usable_key w = Some key ->
     axios_get w (CMC_request key) = inr data ->
     CMC_record w data = inl e ->
     getBitcoinPriceFromCMC w =
       (inl e, [AxiosGet (CMC_request key);
                ConsoleError [LStr "CoinMarketCap API error:"; LStr (message e)]])) /\
  (forall e,
     axios_get w CoinGecko_request = inl e ->
     getBitcoinPriceFromCoinGecko w =
       (inl e, [AxiosGet CoinGecko_request;
                ConsoleError [LStr "CoinGecko API error:"; LStr (message e)]])) /\
  (forall data e,
     axios_get w CoinGecko_request = inr data ->
     CoinGecko_record w data = inl e ->
     getBitcoinPriceFromCoinGecko w =
       (inl e, [AxiosGet CoinGecko_request;
                ConsoleError [LStr "CoinGecko API error:"; LStr (message e)]])) /\
  (forall e, fst (getBitcoinPrice w) = inl e -> e = ALL_FAILED).
Proof.
  repeat split.
  - intros H. rewrite getBitcoinPriceFromCMC_unfold, CMC_try_unfold, H. reflexivity.
  - intros key e Hk Ha.
    rewrite getBitcoinPriceFromCMC_unfold, CMC_try_unfold, Hk, Ha. reflexivity.
  - intros key data e Hk Ha Hr.
    rewrite getBitcoinPriceFromCMC_unfold, CMC_try_unfold, Hk, Ha, Hr. reflexivity.
  - intros e Ha.
    rewrite getBitcoinPriceFromCoinGecko_unfold, CoinGecko_try_unfold, Ha. reflexivity.
  - intros data e Ha Hr.
    rewrite getBitcoinPriceFromCoinGecko_unfold, CoinGecko_try_unfold, Ha, Hr. reflexivity.
  - apply getBitcoinPrice_failure.
Qed.

Lemma C5_provider_failures_witness :
  getBitcoinPriceFromCMC world_no_key =
    (inl KEY_MISSING,
     [ConsoleError [LStr "CoinMarketCap API error:"; LStr (message KEY_MISSING)]]) /\
  fst (getBitcoinPriceFromCMC world_down) = inl network_error /\
  fst (getBitcoinPriceFromCMC world_malformed)
    = inl (TypeError "Cannot read properties of undefined (reading 'BTC')") /\
  fst (getBitcoinPriceFromCoinGecko world_down) = inl network_error /\
  fst (getBitcoinPriceFromCoinGecko world_malformed)
    = inl (TypeError "Cannot read properties of undefined (reading 'usd')") /\
  (forall e, fst (getBitcoinPrice world_down) = inl e -> e = ALL_FAILED).
Proof.
  split; [apply (C5_provider_failures world_no_key); reflexivity|].
  split; [destruct (C5_provider_failures world_down) as (_ & H & _);
          rewrite (H "test-key" network_error eq_refl eq_refl); reflexivity|].
  split; [destruct (C5_provider_failures world_malformed) as (_ & _ & H & _);
          rewrite (H "test-key" empty_payload
                     (TypeError "Cannot read properties of undefined (reading 'BTC')")
                     eq_refl eq_refl eq_refl); reflexivity|].
  split; [destruct (C5_provider_failures world_down) as (_ & _ & _ & H & _);
          rewrite (H network_error eq_refl); reflexivity|].
  split; [destruct (C5_provider_failures world_malformed) as (_ & _ & _ & _ & H & _);
          rewrite (H empty_payload
                     (TypeError "Cannot read properties of undefined (reading 'usd')")
                     eq_refl eq_refl); reflexivity|].
  destruct (C5_provider_failures world_down) as (_ & _ & _ & _ & _ & H).
  exact H.
Defined.

(** C5 as the specification states it fails: with the credential
    present and the network down, the primary provider function fails
    with the very error that [axios.get] rejected with, an error of
    another class than the one raised for a missing credential. *)
Lemma C5_counterexample :
  axios_get world_down (CMC_request "test-key") = inl network_error /\
  fst (getBitcoinPriceFromCMC world_down) = inl network_error /\
  fst (getBitcoinPriceFromCMC world_no_key) = inl KEY_MISSING /\
  class network_error <> class KEY_MISSING.
Proof. repeat split; try reflexivity. discriminate. Qed.

(** ** Unknown tools *)

(** An unknown name that converts to a string is refused with status
    400. *)
Lemma unknown_tool_refused (w : World) (body : list string)
      (request name : Value) (text : string) :
  JSON_parse w (String.concat EmptyString body) = inr request ->
  get_prop request "name" = inr name ->
  strict_eq_string name "get-bitcoin-price" = false ->
  ToString w name = inr text ->
  let out := serve w (POST "/execute" body) in
  fst (fst out) = inr tt /\
  statusCode (response_of out) = 400 /\
  finished (response_of out) = true /\
  written (response_of out) = [error_body ("Unknown tool: " ++ text)].
Proof.
  intros Hparse Hname Hneq Htext out. subst out.
  unfold response_of.
  rewrite serve_execute_unfold, execute_end_unfold, Hparse, Hname, Hneq, Htext.
  cbn [fst snd]. unfold responded. rewrite stringify_error_payload.
  repeat split; reflexivity.
Qed.

(** The conversion of a name that is not an object or array never
    fails. *)
Lemma ToString_primitive (w : World) (name : Value) :
  match name with VObj _ | VArr _ => False | _ => True end ->
  exists text, ToString w name = inr text.
Proof.
  destruct name as [| |[]| | | |]; simpl; intros H; try contradiction; eauto.
Qed.

(** An unknown name that does not convert to a string: the status line
    400 is already stored when the conversion throws, the [catch]
    block's own [writeHead] throws in turn, and that exception leaves
    the listener with the response unfinished. *)
Lemma unknown_tool_unhandled (w : World) (body : list string)
      (request name : Value) (e : JsError) :
  JSON_parse w (String.concat EmptyString body) = inr request ->
  get_prop request "name" = inr name ->
  strict_eq_string name "get-bitcoin-price" = false ->
  ToString w name = inl e ->
  let out := serve w (POST "/execute" body) in
  fst (fst out) = inl (HEADERS_SENT "write") /\
  finished (response_of out) = false /\
  written (response_of out) = [].
Proof.
  intros Hparse Hname Hneq Htext out. subst out.
  unfold response_of.
  rewrite serve_execute_unfold, execute_end_unfold, Hparse, Hname, Hneq, Htext.
  repeat split; reflexivity.
Qed.

(** C6 fails on the code: the body
    [{"name":{"toString":1},"arguments":{}}] parses as JSON and names
    no registered tool, yet the request gets no answer.  An
    [ERR_HTTP_HEADERS_SENT] exception leaves the listener, nothing is
    written and the response is never finished. *)
Theorem C6_unknown_tool_unhandled_exception :
  JSON_parse world_primary (String.concat EmptyString [body_object_name])
    = inr (VObj [("name", VObj [("toString", VNum one)]); ("arguments", VObj [])]) /\
  let out := serve world_primary (POST "/execute" [body_object_name]) in
  fst (fst out) = inl (HEADERS_SENT "write") /\
  statusCode (response_of out) = 400 /\
  finished (response_of out) = false /\
  written (response_of out) = [].
Proof. repeat split; reflexivity. Qed.

(** ** The arguments of a request *)

(** C10: two [POST /execute] requests whose bodies parse and whose
    [name] reads give the same result are answered alike in the same
    world: same outcome of the listener, same response, same outbound
    calls.  Nothing but [name] is read from the parsed body (the whole
    body does appear on the server's console). *)
Theorem C10_arguments_do_not_interfere (w : World) (b1 b2 : list string)
        (v1 v2 : Value) :
  JSON_parse w (String.concat EmptyString b1) = inr v1 ->
  JSON_parse w (String.concat EmptyString b2) = inr v2 ->
  get_prop v1 "name" = get_prop v2 "name" ->
  fst (serve w (POST "/execute" b1)) = fst (serve w (POST "/execute" b2)) /\
  outbound_calls (snd (serve w (POST "/execute" b1)))
    = outbound_calls (snd (serve w (POST "/execute" b2))).
Proof.
  intros H1 H2 Hname.
  rewrite !serve_execute_unfold, !serve_execute_events, !execute_end_unfold.
  rewrite H1, H2, Hname.
  destruct (get_prop v2 "name") as [e|name]; [split; reflexivity|].
  destruct (strict_eq_string name "get-bitcoin-price").
  - destruct (getBitcoinPrice w) as [[e|r] t]; split; reflexivity.
  - destruct (ToString w name); split; reflexivity.
Qed.

Lemma C10_arguments_do_not_interfere_witness :
  fst (serve world_primary (POST "/execute" [body_price]))
    = fst (serve world_primary (POST "/execute" [body_price_args])) /\
  outbound_calls (snd (serve world_primary (POST "/execute" [body_price])))
    = outbound_calls (snd (serve world_primary (POST "/execute" [body_price_args]))).
Proof.
  apply (C10_arguments_do_not_interfere world_primary [body_price] [body_price_args]
           (VObj [("name", VStr "get-bitcoin-price"); ("arguments", VObj [])])
           (VObj [("name", VStr "get-bitcoin-price");
                  ("arguments", VObj [("currency", VStr "EUR")])]));
    reflexivity.
Defined.



(** ** The discovery payload *)

(** C7: the body of [GET /], the data of the first (and only) event
    written when [GET /events] opens, and [JSON.stringify] of the
    registry are the same text; that text and both answers are the same
    in every world, so reading the registry is pure and deterministic. *)
Theorem C7_discovery_payload (w w' : World) :
  exists schema : string,
    JSON_stringify w mcp = Some schema /\
    JSON_stringify w' mcp = Some schema /\
    written (response_of (serve w (GET "/"))) = [schema] /\
    written (response_of (serve w (GET "/events")))
      = [discovery_event schema] /\
    sse_event_data (discovery_event schema) = Some schema /\
    serve w' (GET "/") = serve w (GET "/") /\
    serve w' (GET "/events") = serve w (GET "/events").
Proof.
  eexists. split; [vm_compute; reflexivity|].
  repeat split; vm_compute; reflexivity.
Qed.

(** ** A streaming connection *)

Lemma firings_none (due period until : Z) :
  0 < period -> until <= due -> firings due period until = 0%nat.
Proof.
  intros Hp H. unfold firings.
  assert ((until - due + period - 1) / period <= 0); [|lia].
  assert ((until - due + period - 1) / period < 1); [|lia].
  apply Z.div_lt_upper_bound; lia.
Qed.

Lemma firings_next (due period until : Z) :
  0 < period -> due < until ->
  firings due period until = S (firings (due + period) period until).
Proof.
  intros Hp H. unfold firings.
  replace (until - due + period - 1) with ((until - (due + period) + period - 1) + 1 * period) by lia.
  rewrite Z.div_add by lia.
  assert (0 <= (until - (due + period) + period - 1) / period)
    by (apply Z.div_pos; lia).
  lia.
Qed.

(** With enough fuel the timer's callback has run once for every
    instant that fell due, and each run wrote one heartbeat. *)
Lemma run_timers_heartbeats (w : World) (period until : Z) (fuel : nat) :
  0 < period ->
  forall (due : Z) (chunks : list string) (t : list Event),
    (firings due period until <= fuel)%nat ->
    run_timers fuel w due until (stream_conn chunks (Some period), t) =
    (stream_conn (chunks ++ repeat heartbeat_chunk (firings due period until))
                 (Some period), t).
Proof.
  intros Hp. induction fuel as [|fuel IH]; intros due chunks t Hfuel.
  - assert (firings due period until = 0%nat) as -> by lia.
    simpl. rewrite app_nil_r. reflexivity.
  - cbn [run_timers stream_conn fst snd heartbeatInterval].
    destruct (due <? until) eqn:E.
    + apply Z.ltb_lt in E.
      rewrite (firings_next due period until) in * by assumption.
      cbn -[heartbeat_chunk firings]. rewrite app_nil_r.
      change (run_timers fuel w (due + period) until
                (stream_conn (chunks ++ [heartbeat_chunk]) (Some period), t) =
              (stream_conn (chunks ++ heartbeat_chunk
                              :: repeat heartbeat_chunk (firings (due + period) period until))
                           (Some period), t)).
      rewrite IH by lia.
      rewrite <- app_assoc. reflexivity.
    + apply Z.ltb_ge in E. rewrite firings_none by assumption.
      simpl. rewrite app_nil_r. reflexivity.
Qed.

Lemma serve_events (w : World) :
  exists schema : string,
    JSON_stringify w mcp = Some schema /\
    serve w (GET "/events") =
    (inr tt, stream_conn [discovery_event schema] (Some 30000),
     [ConsoleLog [LStr "Received GET request for /events"]]).
Proof. eexists. split; vm_compute; reflexivity. Qed.

Lemma count_chunk_repeat (x y : string) (n : nat) :
  count_chunk x (repeat y n) = if String.eqb x y then n else 0%nat.
Proof.
  unfold count_chunk. induction n as [|n IH]; simpl.
  - destruct (String.eqb x y); reflexivity.
  - destruct (String.eqb x y) eqn:E; simpl; rewrite IH; reflexivity.
Qed.

Lemma count_chunk_cons (x y : string) (l : list string) :
  count_chunk x (y :: l)
  = ((if String.eqb x y then 1 else 0) + count_chunk x l)%nat.
Proof. unfold count_chunk. simpl. destruct (String.eqb x y); reflexivity. Qed.

(** C8: on a connection opened by [GET /events] and closed by the
    peer after [duration] milliseconds, the first chunk written is the
    discovery event, it is written once, every later chunk is a
    heartbeat, one for each multiple of 30 seconds before the
    disconnect; the server never ends the stream, and the timer is
    cleared at the disconnect.  Held for at least 90 seconds, the
    connection has received at least two heartbeats. *)
Theorem C8_streaming_connection (w : World) (duration : Z) :
  exists (schema : string) (n : nat),
    JSON_stringify w mcp = Some schema /\
    written (res (fst (connection w (GET "/events") duration)))
      = discovery_event schema :: repeat heartbeat_chunk n /\
    n = Z.to_nat ((duration - 1) / 30000) /\
    count_chunk (discovery_event schema)
      (written (res (fst (connection w (GET "/events") duration)))) = 1%nat /\
    count_chunk heartbeat_chunk
      (written (res (fst (connection w (GET "/events") duration)))) = n /\
    finished (res (fst (connection w (GET "/events") duration))) = false /\
    heartbeatInterval (fst (connection w (GET "/events") duration)) = None /\
    (90000 <= duration -> (2 <= n)%nat).
Proof.
  destruct (serve_events w) as (schema & Hs & Hserve).
  exists schema, (firings 30000 30000 duration).
  assert (Hn : firings 30000 30000 duration = Z.to_nat ((duration - 1) / 30000)).
  { unfold firings. f_equal. f_equal. lia. }
  assert (Hconn : fst (connection w (GET "/events") duration)
                  = stream_conn (discovery_event schema
                                   :: repeat heartbeat_chunk (firings 30000 30000 duration))
                                None).
  { unfold connection. unfold serve in Hserve. rewrite Hserve.
    cbn [stream_conn heartbeatInterval].
    change {| res := ?r; heartbeatInterval := Some 30000; closeListener := true |}
      with (stream_conn [discovery_event schema] (Some 30000)).
    rewrite run_timers_heartbeats.
    - reflexivity.
    - lia.
    - rewrite Hn. destruct (Z.le_gt_cases duration 0) as [Hle|Hgt].
      + assert ((duration - 1) / 30000 < 0)
          by (apply Z.div_lt_upper_bound; lia).
        lia.
      + assert ((duration - 1) / 30000 < duration)
          by (apply Z.div_lt_upper_bound; lia).
        lia. }
  rewrite Hconn. cbn [stream_conn res written finished heartbeatInterval].
  split; [exact Hs|]. split; [reflexivity|]. split; [exact Hn|].
  rewrite !count_chunk_cons, !count_chunk_repeat, !String.eqb_refl.
  replace (heartbeat_chunk =? discovery_event schema)%string with false by reflexivity.
  replace (discovery_event schema =? heartbeat_chunk)%string with false by reflexivity.
  repeat split; try reflexivity.
  intros Hd. rewrite Hn.
  assert (2 <= (duration - 1) / 30000) by (apply Z.div_le_lower_bound; lia).
  lia.
Qed.

Lemma C8_streaming_connection_witness :
  90000 <= 90000 /\
  exists (schema : string) (n : nat),
    written (res (fst (connection world_primary (GET "/events") 90000)))
      = discovery_event schema :: repeat heartbeat_chunk n /\
    (2 <= n)%nat.
Proof.
  split; [lia|].
  destruct (C8_streaming_connection world_primary 90000)
    as (schema & n & _ & Hw & _ & _ & _ & _ & _ & H2).
  exists schema, n. split; [exact Hw|]. apply H2. lia.
Defined.



(** ** Two fraction digits *)

Lemma all_digits_uint (d : Decimal.uint) :
  all_digits (NilEmpty.string_of_uint d) = true.
Proof. induction d; simpl; auto. Qed.

Lemma all_digits_append (a b : string) :
  all_digits (a ++ b) = all_digits a && all_digits b.
Proof.
  induction a as [|c a IH]; simpl; [reflexivity|].
  rewrite IH, andb_assoc. reflexivity.
Qed.

Lemma all_digits_zeros (k : nat) : all_digits (zeros k) = true.
Proof. induction k; simpl; auto. Qed.

Lemma all_digits_substring (s : string) :
  all_digits s = true -> forall n m, all_digits (substring n m s) = true.
Proof.
  induction s as [|c s IH]; intros H n m.
  - destruct n, m; reflexivity.
  - simpl in H. apply andb_true_iff in H as [Hc Hs].
    destruct n; simpl.
    + destruct m; simpl; [reflexivity|]. rewrite Hc. now apply IH.
    + now apply IH.
Qed.

Lemma length_substring (s : string) :
  forall n m, (n + m <= String.length s)%nat ->
              String.length (substring n m s) = m.
Proof.
  induction s as [|c s IH]; intros n m H; simpl in H.
  - destruct n, m; simpl; lia.
  - destruct n; simpl.
    + destruct m; simpl; [reflexivity|]. rewrite IH; lia.
    + apply IH. lia.
Qed.

Lemma decimal_digits_ok (n : Z) :
  all_digits (decimal_digits n) = true /\
  (1 <= String.length (decimal_digits n))%nat.
Proof.
  unfold decimal_digits. split; [apply all_digits_uint|].
  destruct (Z.to_N n) as [|p]; simpl; [lia|].
  pose proof (Unsigned.to_uint_nonnil p) as H.
  destruct (Pos.to_uint p); simpl; try lia. contradiction.
Qed.

Lemma digit_is_not_point (c : ascii) :
  is_digit c = true -> Ascii.eqb c "."%char = false.
Proof. destruct c as [[] [] [] [] [] [] [] []]; vm_compute; congruence. Qed.

Lemma digit_is_not_minus (c : ascii) :
  is_digit c = true -> Ascii.eqb c "-"%char = false.
Proof. destruct c as [[] [] [] [] [] [] [] []]; vm_compute; congruence. Qed.

Lemma int_then_fraction_intro (a b : string) :
  all_digits a = true -> (1 <= String.length a)%nat ->
  all_digits b = true -> String.length b = 2%nat ->
  int_then_fraction (a ++ "." ++ b) = true.
Proof.
  intros Ha Hl Hb Hlb.
  induction a as [|c a IH]; simpl in *; [lia|].
  apply andb_true_iff in Ha as [Hc Ha]. rewrite Hc. simpl.
  destruct a as [|c' a]; simpl.
  - rewrite Hlb, Hb. reflexivity.
  - simpl in Ha, IH. pose proof Ha as Ha'.
    apply andb_true_iff in Ha' as [Hc' _].
    rewrite (digit_is_not_point c' Hc'). apply IH; [exact Ha|lia].
Qed.

Lemma fixed_notation_two (n : Z) :
  int_then_fraction (fixed_notation 2 n) = true.
Proof.
  unfold fixed_notation.
  destruct (decimal_digits_ok n) as [Hd Hl].
  set (m := if (String.length (decimal_digits n) <=? 2)%nat
            then zeros (2 + 1 - String.length (decimal_digits n)) ++ decimal_digits n
            else decimal_digits n).
  assert (Hm : all_digits m = true /\ (3 <= String.length m)%nat).
  { subst m. destruct (Nat.leb_spec (String.length (decimal_digits n)) 2).
    - rewrite all_digits_append, all_digits_zeros, Hd, length_append. split; [reflexivity|].
      assert (forall k, String.length (zeros k) = k) as ->
          by (induction k; simpl; congruence).
      lia.
    - split; [exact Hd|lia]. }
  destruct Hm as [Hm1 Hm2].
  apply int_then_fraction_intro.
  - now apply all_digits_substring.
  - rewrite length_substring; lia.
  - now apply all_digits_substring.
  - apply length_substring. lia.
Qed.

Lemma int_then_fraction_unsigned (s : string) :
  int_then_fraction s = true -> two_fraction_digits s = true.
Proof.
  destruct s as [|c s]; [discriminate|].
  intros H. unfold two_fraction_digits.
  pose proof H as H'. simpl in H'. apply andb_true_iff in H' as [Hc _].
  rewrite (digit_is_not_minus c Hc). exact H.
Qed.

(** What [toFixed(2)] renders below [10^21] has exactly two fraction
    digits. *)
Lemma toFixed_two_fraction_digits (w : World) (x : spec_float) :
  finite_below_1e21 x = true ->
  two_fraction_digits (Number_toFixed w 2 x) = true.
Proof.
  destruct x as [s|s| |s m e]; simpl; try discriminate.
  - reflexivity.
  - intros H. apply negb_true_iff in H. rewrite H.
    destruct s.
    + change ("-" ++ ?t) with (String "-"%char t).
      unfold two_fraction_digits. cbn [Ascii.eqb Bool.eqb]. apply fixed_notation_two.
    + apply int_then_fraction_unsigned. apply fixed_notation_two.
Qed.



Lemma call_toFixed_inr (w : World) (expr : string) (v : Value) (s : string) :
  call_toFixed w expr v = inr s ->
  exists x, v = VNum x /\ s = Number_toFixed w 2 x.
Proof.
  destruct v; simpl; try discriminate.
  intros [= <-]. eauto.
Qed.

Ltac rbind_inv H :=
  match type of H with
  | rbind ?r _ = inr _ =>
      let E := fresh "E" in
      destruct r eqn:E; cbn [rbind] in H; [discriminate|]
  end.

Lemma CMC_record_numbers (w : World) (data : Value) (r : PriceRecord) :
  CMC_record w data = inr r ->
  exists p c m,
    CMC_upstream data "price" = inr (VNum p) /\
    CMC_upstream data "percent_change_24h" = inr (VNum c) /\
    CMC_upstream data "market_cap" = inr (VNum m) /\
    price r = Number_toFixed w 2 p /\
    percent_change_24h r = Number_toFixed w 2 c /\
    market_cap r = Number_toFixed w 2 m.
Proof.
  unfold CMC_record, CMC_upstream. intros H.
  destruct (get_prop data "data") as [|d]; [discriminate|]. cbn [rbind] in *.
  destruct (get_prop d "BTC") as [|btcData]; [discriminate|]. cbn [rbind] in *.
  do 7 rbind_inv H.
  injection H as <-. cbn [price percent_change_24h market_cap].
  repeat match goal with
         | E : call_toFixed _ _ _ = inr _ |- _ =>
             apply call_toFixed_inr in E; destruct E as (? & -> & ->)
         end.
  eauto 10.
Qed.

Lemma CoinGecko_record_numbers (w : World) (data : Value) (r : PriceRecord) :
  CoinGecko_record w data = inr r ->
  exists p c m,
    CoinGecko_upstream data "usd" = inr (VNum p) /\
    CoinGecko_upstream data "usd_24h_change" = inr (VNum c) /\
    CoinGecko_upstream data "usd_market_cap" = inr (VNum m) /\
    price r = Number_toFixed w 2 p /\
    percent_change_24h r = Number_toFixed w 2 c /\
    market_cap r = Number_toFixed w 2 m.
Proof.
  unfold CoinGecko_record, CoinGecko_upstream. intros H.
  destruct (get_prop data "bitcoin") as [|btcData]; [discriminate|]. cbn [rbind] in *.
  do 8 rbind_inv H.
  injection H as <-. cbn [price percent_change_24h market_cap].
  repeat match goal with
         | E : call_toFixed _ _ _ = inr _ |- _ =>
             apply call_toFixed_inr in E; destruct E as (? & -> & ->)
         end.
  eauto 10.
Qed.

(** Every record the lookup returns was built from the reply of one
    provider. *)
Lemma getBitcoinPrice_answered (w : World) (r : PriceRecord) :
  fst (getBitcoinPrice w) = inr r ->
  exists p c m,
    answered_with w r p c m /\
    price r = Number_toFixed w 2 p /\
    percent_change_24h r = Number_toFixed w 2 c /\
    market_cap r = Number_toFixed w 2 m.
Proof.
  rewrite getBitcoinPrice_unfold.
  destruct (fst (getBitcoinPriceFromCMC w)) as [e1|r1] eqn:E1; simpl.
  - destruct (fst (getBitcoinPriceFromCoinGecko w)) as [e2|r2] eqn:E2; [discriminate|].
    intros [= <-].
    pose proof (CoinGecko_success_source w r2 E2) as Hsrc.
    rewrite getBitcoinPriceFromCoinGecko_unfold, CoinGecko_try_unfold in E2.
    simpl in E2.
    destruct (axios_get w CoinGecko_request) as [e|data] eqn:Ea; [discriminate|].
    destruct (CoinGecko_record w data) as [e|r'] eqn:Er; simpl in E2; [discriminate|].
    injection E2 as ->.
    destruct (CoinGecko_record_numbers w data r2 Er) as (p & c & m & H1 & H2 & H3 & H).
    exists p, c, m. split; [|exact H].
    right. split; [exact Hsrc|]. exists data. auto.
  - intros [= <-].
    pose proof (CMC_success_source w r1 E1) as Hsrc.
    rewrite getBitcoinPriceFromCMC_unfold, CMC_try_unfold in E1.
    destruct (usable_key w) as [key|] eqn:Ek; simpl in E1; [|discriminate].
    destruct (axios_get w (CMC_request key)) as [e|data] eqn:Ea; [discriminate|].
    destruct (CMC_record w data) as [e|r'] eqn:Er; simpl in E1; [discriminate|].
    injection E1 as ->.
    destruct (CMC_record_numbers w data r1 Er) as (p & c & m & H1 & H2 & H3 & H).
    exists p, c, m. split; [|exact H].
    left. split; [exact Hsrc|]. exists key, data. auto.
Qed.

(** The example of the specification: [d43000_1] is the double nearest
    to 43000.1 (within half a unit in the last place, [2^-38]), and
    [toFixed(2)] renders it as 43000.10. *)
Lemma toFixed_43000_1 (w : World) :
  (2 ^ 52 <= 5909888743191347 < 2 ^ 53) /\
  Z.abs (10 * 5909888743191347 - 430001 * 2 ^ 37) <= 5 /\
  Number_toFixed w 2 d43000_1 = "43000.10".
Proof. repeat split; vm_compute; congruence. Qed.

(** Beyond the fixed notation: [10^21] is a double, and [toFixed(2)]
    hands it to [Number::toString], which an engine renders as 1e+21. *)
Lemma toFixed_1e21 :
  Z.pos 476837158203125 * 2 ^ 21 = 10 ^ 21 /\
  Number_toFixed world_primary 2 d1e21 = "1e+21" /\
  two_fraction_digits "1e+21" = false.
Proof. repeat split; reflexivity. Qed.

(** C9, as the code has it: the three numeric fields of every record
    the lookup returns are [toFixed(2)] of the numbers the answering
    provider sent, and such a field has exactly two fraction digits
    whenever the number is finite and below [10^21] in magnitude,
    whatever its precision: the double 43000.1 gives 43000.10. *)
Theorem C9_two_fraction_digits (w : World) :
  Number_toFixed w 2 d43000_1 = "43000.10" /\
  forall r : PriceRecord,
    fst (getBitcoinPrice w) = inr r ->
    exists p c m : spec_float,
      answered_with w r p c m /\
      price r = Number_toFixed w 2 p /\
      percent_change_24h r = Number_toFixed w 2 c /\
      market_cap r = Number_toFixed w 2 m /\
      (finite_below_1e21 p = true -> two_fraction_digits (price r) = true) /\
      (finite_below_1e21 c = true ->
       two_fraction_digits (percent_change_24h r) = true) /\
      (finite_below_1e21 m = true -> two_fraction_digits (market_cap r) = true).
Proof.
  split; [apply toFixed_43000_1|].
  intros r H.
  destruct (getBitcoinPrice_answered w r H) as (p & c & m & Ha & Hp & Hc & Hm).
  exists p, c, m. rewrite Hp, Hc, Hm.
  repeat split; try assumption; apply toFixed_two_fraction_digits.
Qed.

Lemma C9_two_fraction_digits_witness :
  fst (getBitcoinPrice world_primary) = inr sample_primary_record /\
  exists p c m : spec_float,
    answered_with world_primary sample_primary_record p c m /\
    price sample_primary_record = Number_toFixed world_primary 2 p /\
    percent_change_24h sample_primary_record = Number_toFixed world_primary 2 c /\
    market_cap sample_primary_record = Number_toFixed world_primary 2 m /\
    (finite_below_1e21 p = true ->
     two_fraction_digits (price sample_primary_record) = true) /\
    (finite_below_1e21 c = true ->
     two_fraction_digits (percent_change_24h sample_primary_record) = true) /\
    (finite_below_1e21 m = true ->
     two_fraction_digits (market_cap sample_primary_record) = true).
Proof.
  split; [reflexivity|].
  apply (C9_two_fraction_digits world_primary). reflexivity.
Defined.

(** C9 as the specification states it fails: the secondary provider
    sends a price that reads as infinity, the lookup succeeds, and the
    price field is the text Infinity. *)
Lemma C9_counterexample :
  CoinGecko_upstream (gecko_payload (S754_infinity false)) "usd"
    = inr (VNum (S754_infinity false)) /\
  fst (getBitcoinPrice world_infinite)
    = inr {| price := "Infinity";
             percent_change_24h := "-1.25";
             market_cap := "850000000000.00";
             last_updated := VStr "2023-11-14T22:13:20.000Z";
             source := "CoinGecko" |} /\
  two_fraction_digits "Infinity" = false.
Proof. repeat split; reflexivity. Qed.


(** * Further properties of the server, the providers and the terminal *)

(** ** Every route of the request listener *)

(** The listener, route by route. *)
Lemma serve_unfold (w : World) (req : IncomingMessage) :
  serve w req =
  if String.eqb (method req) "OPTIONS" then (inr tt, preflight_conn, [])
  else if is_route "GET" "/events" req then
    (inr tt,
     stream_conn [discovery_event (template_of (JSON_stringify w mcp))] (Some 30000),
     [received_request req])
  else if is_route "GET" "/" req then
    (inr tt, responded w 200 mcp, [received_request req])
  else if is_route "GET" "/health" req then
    (inr tt, responded w 200 healthy, [received_request req])
  else if is_route "POST" "/execute" req then
    match execute_end (String.concat EmptyString (chunks req)) w cors_conn with
    | (r, c, t) => (r, c, received_request req :: t)
    end
  else (inr tt, responded w 404 (error_payload "Not found"), [received_request req]).
Proof.
  unfold serve, requestListener, is_route, received_request.
  destruct (String.eqb (method req) "OPTIONS").
  - reflexivity.
  - destruct (String.eqb (method req) "GET" && String.eqb (url req) "/events").
    { vm_compute. reflexivity. }
    destruct (String.eqb (method req) "GET" && String.eqb (url req) "/").
    { vm_compute. reflexivity. }
    destruct (String.eqb (method req) "GET" && String.eqb (url req) "/health").
    { vm_compute. reflexivity. }
    destruct (String.eqb (method req) "POST" && String.eqb (url req) "/execute").
    + cbn -[execute_end]. fold cors_headers. fold cors_conn.
      destruct (execute_end (concat EmptyString (chunks req)) w cors_conn) as [[r c] t].
      reflexivity.
    + vm_compute. reflexivity.
Qed.

Ltac execute_cases :=
  rewrite execute_end_unfold;
  repeat match goal with
         | |- context [match ?x with _ => _ end] =>
             lazymatch x with
             | context [match _ with _ => _ end] => fail
             | _ => destruct x
             end
         end.

Ltac route_cases w req :=
  rewrite (serve_unfold w req);
  destruct (String.eqb (method req) "OPTIONS") eqn:?;
  [|destruct (is_route "GET" "/events" req) eqn:?;
    [|destruct (is_route "GET" "/" req) eqn:?;
      [|destruct (is_route "GET" "/health" req) eqn:?;
        [|destruct (is_route "POST" "/execute" req) eqn:?]]]].

(** X1: whatever the request and the world, the headers of the
    response begin with the three CORS headers, so every response that
    is sent allows any origin. *)
Theorem X1_cors_headers_on_every_response (w : World) (req : IncomingMessage) :
  exists extra : list (string * string),
    outHeaders (response_of (serve w req)) = (cors_headers ++ extra)%list /\
    In ("Access-Control-Allow-Origin", "*") (outHeaders (response_of (serve w req))).
Proof.
  assert (H : exists extra : list (string * string),
             outHeaders (response_of (serve w req)) = (cors_headers ++ extra)%list).
  { unfold response_of. route_cases w req;
      try (eexists; reflexivity).
    execute_cases; eexists; reflexivity. }
  destruct H as [extra H]. exists extra. split; [exact H|].
  rewrite H. apply in_or_app. left. simpl. auto.
Qed.

(** X2: a preflight request, on any URL and with any body, is answered
    204 with no body; it is not logged and makes no lookup. *)
Theorem X2_preflight (w : World) (u : string) (body : list string) :
  serve w {| method := "OPTIONS"; url := u; chunks := body |}
  = (inr tt, preflight_conn, []).
Proof. rewrite serve_unfold. reflexivity. Qed.



(** X4: only [POST /execute] makes a lookup: any other request leaves
    the process with no outbound call, and its listener returns
    normally. *)
Theorem X4_only_execute_calls_out (w : World) (req : IncomingMessage) :
  is_route "POST" "/execute" req = false ->
  outbound_calls (snd (serve w req)) = [] /\
  fst (fst (serve w req)) = inr tt.
Proof.
  intros H. route_cases w req; try (split; reflexivity).
  congruence.
Qed.

Lemma X4_only_execute_calls_out_witness :
  is_route "POST" "/execute" (POST "/" [body_price]) = false /\
  outbound_calls (snd (serve world_primary (POST "/" [body_price]))) = [] /\
  fst (fst (serve world_primary (POST "/" [body_price]))) = inr tt.
Proof.
  split; [reflexivity|].
  apply (X4_only_execute_calls_out world_primary (POST "/" [body_price])).
  reflexivity.
Defined.

(** X5: the health check answers 200 with [{"status":"healthy"}] in
    every world, whatever the credential and the state of the
    providers. *)
Theorem X5_health (w : World) :
  serve w (GET "/health")
  = (inr tt, responded w 200 healthy, [received_request (GET "/health")]) /\
  written (response_of (serve w (GET "/health")))
  = ["{" ++ quoted "status" ++ ":" ++ quoted "healthy" ++ "}"].
Proof. split; vm_compute; reflexivity. Qed.



(** X6: a request has one of three outcomes.  Either the listener
    returns with the response finished, carrying at most one body chunk
    and one of the statuses 204, 200, 400, 404, 500, and no timer or
    close listener is left; or the request is [GET /events], whose
    response stays open with one chunk written, the timer set and the
    close listener registered; or it is a [POST /execute] from whose
    listener the headers-already-sent exception escapes, with nothing
    written and the response unfinished. *)
Theorem X6_outcomes_of_a_request (w : World) (req : IncomingMessage) :
  let out := serve w req in
  (fst (fst out) = inr tt /\
   finished (response_of out) = true /\
   (List.length (written (response_of out)) <= 1)%nat /\
   In (statusCode (response_of out)) [204; 200; 400; 404; 500] /\
   heartbeatInterval (snd (fst out)) = None /\
   closeListener (snd (fst out)) = false)
  \/
  (is_route "GET" "/events" req = true /\
   fst (fst out) = inr tt /\
   finished (response_of out) = false /\
   List.length (written (response_of out)) = 1%nat /\
   statusCode (response_of out) = 200 /\
   heartbeatInterval (snd (fst out)) = Some 30000 /\
   closeListener (snd (fst out)) = true)
  \/
  (is_route "POST" "/execute" req = true /\
   fst (fst out) = inl (HEADERS_SENT "write") /\
   finished (response_of out) = false /\
   written (response_of out) = [] /\
   heartbeatInterval (snd (fst out)) = None).
Proof.
  assert (Hlen : forall status payload,
             (List.length (written (res (responded w status payload))) <= 1)%nat).
  { intros. unfold responded. cbn [res written].
    destruct (JSON_stringify w payload); simpl; lia. }
  cbv zeta. unfold response_of.
  route_cases w req.
  - left. cbn. intuition lia.
  - right. left. cbn. intuition.
  - left. cbn -[responded]. repeat split; auto; simpl; tauto.
  - left. cbn -[responded]. repeat split; auto; simpl; tauto.
  - execute_cases; cbn -[responded];
      first [ left; repeat split; auto; simpl; tauto
            | right; right; repeat split; reflexivity ].
  - left. cbn -[responded]. repeat split; auto; simpl; tauto.
Qed.

Lemma run_timers_idle (fuel : nat) (w : World) (due until : Z)
      (c : Conn) (t : list Event) :
  heartbeatInterval c = None -> run_timers fuel w due until (c, t) = (c, t).
Proof. intros H. destruct fuel; simpl; [|rewrite H]; reflexivity. Qed.

Lemma execute_end_no_timer (w : World) (body : string) :
  heartbeatInterval (snd (fst (execute_end body w cors_conn))) = None /\
  closeListener (snd (fst (execute_end body w cors_conn))) = false.
Proof. execute_cases; split; reflexivity. Qed.

(** X7: no timer outlives its connection.  Whatever the request and
    however long the connection lasted, no interval timer is set once
    the peer has disconnected, and no callback runs afterwards, at any
    later time. *)
Theorem X7_no_timer_after_disconnect (w : World) (req : IncomingMessage)
        (duration : Z) :
  heartbeatInterval (fst (connection w req duration)) = None /\
  forall (fuel : nat) (due until : Z),
    run_timers fuel w due until (connection w req duration)
    = connection w req duration.
Proof.
  assert (H : heartbeatInterval (fst (connection w req duration)) = None).
  { unfold connection.
    change (requestListener req w fresh_conn) with (serve w req).
    route_cases w req; try reflexivity.
    - cbn [heartbeatInterval stream_conn].
      rewrite run_timers_heartbeats with (fuel := Z.to_nat duration).
      + reflexivity.
      + lia.
      + unfold firings.
        replace (duration - 30000 + 30000 - 1) with (duration - 1) by lia.
        destruct (Z.le_gt_cases duration 0) as [Hle|Hgt].
        * assert ((duration - 1) / 30000 < 0)
            by (apply Z.div_lt_upper_bound; lia).
          lia.
        * assert ((duration - 1) / 30000 < duration)
            by (apply Z.div_lt_upper_bound; lia).
          lia.
    - destruct (execute_end_no_timer w (concat EmptyString (chunks req))) as [Ht Hc].
      destruct (execute_end (concat EmptyString (chunks req)) w cors_conn)
        as [[r c] t].
      cbn [fst snd] in *. rewrite Ht. cbn [fst snd]. rewrite Hc. exact Ht. }
  split; [exact H|].
  intros fuel due until.
  destruct (connection w req duration) as [c t]. now apply run_timers_idle.
Qed.



(** ** When a provider succeeds and how it fails *)

Lemma call_toFixed_number (w : World) (expr : string) (x : spec_float) :
  call_toFixed w expr (VNum x) = inr (Number_toFixed w 2 x).
Proof. reflexivity. Qed.

Lemma CMC_record_iff (w : World) (data : Value) (r : PriceRecord) :
  CMC_record w data = inr r <->
  exists (lastUpdated : Value) (p c m : spec_float),
    CMC_upstream data "price" = inr (VNum p) /\
    CMC_upstream data "percent_change_24h" = inr (VNum c) /\
    CMC_upstream data "market_cap" = inr (VNum m) /\
    CMC_upstream data "last_updated" = inr lastUpdated /\
    r = {| price := Number_toFixed w 2 p;
           percent_change_24h := Number_toFixed w 2 c;
           market_cap := Number_toFixed w 2 m;
           last_updated := lastUpdated;
           source := "CoinMarketCap" |}.
Proof.
  unfold CMC_record, CMC_upstream.
  destruct (get_prop data "data") as [e|d]; cbn [rbind].
  { split; [discriminate|]. intros (lu & p & c & m & H & _). discriminate. }
  destruct (get_prop d "BTC") as [e|btcData]; cbn [rbind].
  { split; [discriminate|]. intros (lu & p & c & m & H & _). discriminate. }
  split.
  - intros H. do 7 rbind_inv H. injection H as <-.
    repeat match goal with
           | E : call_toFixed _ _ _ = inr _ |- _ =>
               apply call_toFixed_inr in E; destruct E as (? & -> & ->)
           end.
    eauto 10.
  - intros (lu & p & c & m & -> & -> & -> & -> & ->). reflexivity.
Qed.

Lemma CoinGecko_record_iff (w : World) (data : Value) (r : PriceRecord) :
  CoinGecko_record w data = inr r <->
  exists (last_updated_at : Value) (iso : string) (p c m : spec_float),
    CoinGecko_upstream data "usd" = inr (VNum p) /\
    CoinGecko_upstream data "usd_24h_change" = inr (VNum c) /\
    CoinGecko_upstream data "usd_market_cap" = inr (VNum m) /\
    CoinGecko_upstream data "last_updated_at" = inr last_updated_at /\
    Date_toISOString w last_updated_at = inr iso /\
    r = {| price := Number_toFixed w 2 p;
           percent_change_24h := Number_toFixed w 2 c;
           market_cap := Number_toFixed w 2 m;
           last_updated := VStr iso;
           source := "CoinGecko" |}.
Proof.
  unfold CoinGecko_record, CoinGecko_upstream.
  destruct (get_prop data "bitcoin") as [e|btcData]; cbn [rbind].
  { split; [discriminate|]. intros (a & i & p & c & m & H & _). discriminate. }
  split.
  - intros H. do 8 rbind_inv H. injection H as <-.
    repeat match goal with
           | E : call_toFixed _ _ _ = inr _ |- _ =>
               apply call_toFixed_inr in E; destruct E as (? & -> & ->)
           end.
    eauto 12.
  - intros (a & i & p & c & m & -> & -> & -> & -> & Hd & ->).
    cbn [rbind call_toFixed]. rewrite Hd. reflexivity.
Qed.

(** X8: the primary provider function returns a record exactly when
    the credential is set and not empty, the call is answered, and the
    reply holds numbers under [data.BTC.quote.USD] for [price],
    [percent_change_24h] and [market_cap]; the record is then
    [toFixed(2)] of these numbers together with whatever the reply holds
    as [last_updated], unchecked, be it a string, another value or
    nothing at all. *)
Theorem X8_primary_success (w : World) (r : PriceRecord) :
  fst (getBitcoinPriceFromCMC w) = inr r <->
  exists (key : string) (data lastUpdated : Value) (p c m : spec_float),
    usable_key w = Some key /\
    axios_get w (CMC_request key) = inr data /\
    CMC_upstream data "price" = inr (VNum p) /\
    CMC_upstream data "percent_change_24h" = inr (VNum c) /\
    CMC_upstream data "market_cap" = inr (VNum m) /\
    CMC_upstream data "last_updated" = inr lastUpdated /\
    r = {| price := Number_toFixed w 2 p;
           percent_change_24h := Number_toFixed w 2 c;
           market_cap := Number_toFixed w 2 m;
           last_updated := lastUpdated;
           source := "CoinMarketCap" |}.
Proof.
  rewrite getBitcoinPriceFromCMC_unfold, CMC_try_unfold.
  destruct (usable_key w) as [key|]; cbn [fst snd].
  - destruct (axios_get w (CMC_request key)) as [e|data] eqn:Ea.
    + split; [discriminate|].
      intros (k & d & lu & p & c & m & [= <-] & H & _). congruence.
    + destruct (CMC_record w data) as [e|r'] eqn:Er; cbn [fst].
      * split; [discriminate|].
        intros (k & d & lu & p & c & m & [= <-] & H & H').
        assert (d = data) as -> by congruence.
        assert (Hr : CMC_record w data = inr r)
          by (apply CMC_record_iff; exists lu, p, c, m; exact H').
        congruence.
      * split.
        -- intros [= <-]. apply CMC_record_iff in Er.
           destruct Er as (lu & p & c & m & H).
           exists key, data, lu, p, c, m. auto.
        -- intros (k & d & lu & p & c & m & [= <-] & H & H').
           assert (d = data) as -> by congruence.
           assert (Hr : CMC_record w data = inr r)
             by (apply CMC_record_iff; exists lu, p, c, m; exact H').
           congruence.
  - split; [discriminate|].
    intros (k & d & lu & p & c & m & H & _). discriminate.
Qed.

(** X9: the secondary provider function returns a record exactly when
    the call is answered, the reply holds numbers under [bitcoin] for
    [usd], [usd_24h_change] and [usd_market_cap], and the conversion of
    [last_updated_at] to an ISO date succeeds; the record's
    [last_updated] is then always a string. *)
Theorem X9_secondary_success (w : World) (r : PriceRecord) :
  fst (getBitcoinPriceFromCoinGecko w) = inr r <->
  exists (data last_updated_at : Value) (iso : string) (p c m : spec_float),
    axios_get w CoinGecko_request = inr data /\
    CoinGecko_upstream data "usd" = inr (VNum p) /\
    CoinGecko_upstream data "usd_24h_change" = inr (VNum c) /\
    CoinGecko_upstream data "usd_market_cap" = inr (VNum m) /\
    CoinGecko_upstream data "last_updated_at" = inr last_updated_at /\
    Date_toISOString w last_updated_at = inr iso /\
    r = {| price := Number_toFixed w 2 p;
           percent_change_24h := Number_toFixed w 2 c;
           market_cap := Number_toFixed w 2 m;
           last_updated := VStr iso;
           source := "CoinGecko" |}.
Proof.
  rewrite getBitcoinPriceFromCoinGecko_unfold, CoinGecko_try_unfold. cbn [fst snd].
  destruct (axios_get w CoinGecko_request) as [e|data] eqn:Ea.
  - split; [discriminate|].
    intros (d & a & i & p & c & m & H & _). discriminate.
  - destruct (CoinGecko_record w data) as [e|r'] eqn:Er; cbn [fst].
    + split; [discriminate|].
      intros (d & a & i & p & c & m & [= <-] & H').
      assert (Hr : CoinGecko_record w data = inr r)
        by (apply CoinGecko_record_iff; exists a, i, p, c, m; exact H').
      congruence.
    + split.
      * intros [= <-]. apply CoinGecko_record_iff in Er.
        destruct Er as (a & i & p & c & m & H).
        exists data, a, i, p, c, m. auto.
      * intros (d & a & i & p & c & m & [= <-] & H').
        assert (Hr : CoinGecko_record w data = inr r)
          by (apply CoinGecko_record_iff; exists a, i, p, c, m; exact H').
        congruence.
Qed.



Lemma get_prop_error (v : Value) (k : string) (e : JsError) :
  get_prop v k = inl e -> class e = TypeError_.
Proof.
  destruct v; simpl; try discriminate; try (intros [= <-]; reflexivity).
  destruct (lookup k props); discriminate.
Qed.

Lemma quote_USD_error (btcData : Value) (k : string) (e : JsError) :
  quote_USD btcData k = inl e -> class e = TypeError_.
Proof.
  unfold quote_USD, rbind.
  destruct (get_prop btcData "quote") eqn:E1; [intros [= <-]; eauto using get_prop_error|].
  destruct (get_prop v "USD") eqn:E2; [intros [= <-]; eauto using get_prop_error|].
  apply get_prop_error.
Qed.

Lemma call_toFixed_error (w : World) (expr : string) (v : Value) (e : JsError) :
  call_toFixed w expr v = inl e -> class e = TypeError_.
Proof. destruct v; simpl; try discriminate; intros [= <-]; reflexivity. Qed.

Ltac rbind_err H :=
  match type of H with
  | rbind ?r _ = inl _ =>
      let E := fresh "E" in
      destruct r eqn:E; cbn [rbind] in H;
      [injection H as <-;
       eauto using get_prop_error, quote_USD_error, call_toFixed_error|]
  end.

Lemma CMC_record_error (w : World) (data : Value) (e : JsError) :
  CMC_record w data = inl e -> class e = TypeError_.
Proof.
  unfold CMC_record. intros H.
  destruct (get_prop data "data") as [e0|d] eqn:E0; cbn [rbind] in H.
  { injection H as <-. eauto using get_prop_error. }
  do 8 rbind_err H. discriminate.
Qed.

Lemma CoinGecko_record_error (w : World) (data : Value) (e : JsError) :
  CoinGecko_record w data = inl e ->
  class e = TypeError_ \/
  exists v, CoinGecko_upstream data "last_updated_at" = inr v /\
            Date_toISOString w v = inl e.
Proof.
  unfold CoinGecko_record, CoinGecko_upstream. intros H.
  destruct (get_prop data "bitcoin") as [e0|btcData] eqn:E0; cbn [rbind] in *.
  { injection H as <-. left. eauto using get_prop_error. }
  destruct (get_prop btcData "usd") eqn:E1; cbn [rbind] in H;
    [injection H as <-; left; eauto using get_prop_error|].
  destruct (call_toFixed w "btcData.usd" v) eqn:E2; cbn [rbind] in H;
    [injection H as <-; left; eauto using call_toFixed_error|].
  destruct (get_prop btcData "usd_24h_change") eqn:E3; cbn [rbind] in H;
    [injection H as <-; left; eauto using get_prop_error|].
  destruct (call_toFixed w "btcData.usd_24h_change" v0) eqn:E4; cbn [rbind] in H;
    [injection H as <-; left; eauto using call_toFixed_error|].
  destruct (get_prop btcData "usd_market_cap") eqn:E5; cbn [rbind] in H;
    [injection H as <-; left; eauto using get_prop_error|].
  destruct (call_toFixed w "btcData.usd_market_cap" v1) eqn:E6; cbn [rbind] in H;
    [injection H as <-; left; eauto using call_toFixed_error|].
  destruct (get_prop btcData "last_updated_at") eqn:E7; cbn [rbind] in H;
    [injection H as <-; left; eauto using get_prop_error|].
  destruct (Date_toISOString w v2) eqn:E8; cbn [rbind] in H; [|discriminate].
  injection H as <-. right. eauto.
Qed.

(** X10: the ways a provider function fails are these and no others.
    The primary one throws the missing-credential error, or the
    rejection of its call, or, on a reply of the wrong shape, a
    [TypeError]; the secondary one throws the rejection of its call, a
    [TypeError] on a reply of the wrong shape, or what the date
    conversion of [last_updated_at] threw. *)
Theorem X10_provider_failure_modes (w : World) (e : JsError) :
  (fst (getBitcoinPriceFromCMC w) = inl e ->
   (usable_key w = None /\ e = KEY_MISSING) \/
   (exists key, usable_key w = Some key /\
                axios_get w (CMC_request key) = inl e) \/
   (exists key data, usable_key w = Some key /\
                     axios_get w (CMC_request key) = inr data /\
                     CMC_record w data = inl e /\
                     class e = TypeError_)) /\
  (fst (getBitcoinPriceFromCoinGecko w) = inl e ->
   axios_get w CoinGecko_request = inl e \/
   exists data, axios_get w CoinGecko_request = inr data /\
                CoinGecko_record w data = inl e /\
                (class e = TypeError_ \/
                 exists v, CoinGecko_upstream data "last_updated_at" = inr v /\
                           Date_toISOString w v = inl e)).
Proof.
  split.
  - rewrite getBitcoinPriceFromCMC_unfold, CMC_try_unfold.
    destruct (usable_key w) as [key|]; cbn [fst snd].
    + destruct (axios_get w (CMC_request key)) as [e0|data] eqn:Ea.
      * intros [= <-]. right. left. eauto.
      * destruct (CMC_record w data) as [e0|r] eqn:Er; cbn [fst]; [|discriminate].
        intros [= <-]. right. right. exists key, data.
        eauto using CMC_record_error.
    + intros [= <-]. left. auto.
  - rewrite getBitcoinPriceFromCoinGecko_unfold, CoinGecko_try_unfold. cbn [fst snd].
    destruct (axios_get w CoinGecko_request) as [e0|data] eqn:Ea.
    + intros [= <-]. left. reflexivity.
    + destruct (CoinGecko_record w data) as [e0|r] eqn:Er; cbn [fst]; [|discriminate].
      intros [= <-]. right. exists data. eauto using CoinGecko_record_error.
Qed.

Lemma X10_provider_failure_modes_witness :
  fst (getBitcoinPriceFromCMC world_malformed)
    = inl (TypeError "Cannot read properties of undefined (reading 'BTC')") /\
  exists key data,
    usable_key world_malformed = Some key /\
    axios_get world_malformed (CMC_request key) = inr data /\
    class (TypeError "Cannot read properties of undefined (reading 'BTC')")
      = TypeError_.
Proof.
  split; [reflexivity|].
  destruct (X10_provider_failure_modes world_malformed
              (TypeError "Cannot read properties of undefined (reading 'BTC')"))
    as [H _].
  destruct (H eq_refl) as [[H1 _]|[(key & H1 & H2)|(key & data & H1 & H2 & _ & H4)]].
  - discriminate H1.
  - exfalso. injection H1 as <-. discriminate H2.
  - exists key, data. auto.
Defined.



(** ** The events of a lookup *)

(** The console lines and outbound calls of a lookup, in order. *)
Lemma getBitcoinPrice_events (w : World) :
  snd (getBitcoinPrice w) =
  (match usable_key w with
   | Some key => [AxiosGet (CMC_request key)]
   | None => []
   end ++
   match fst (getBitcoinPriceFromCMC w) with
   | inr _ => []
   | inl e1 =>
       [ConsoleError [LStr "CoinMarketCap API error:"; LStr (message e1)];
        ConsoleLog [LStr "Falling back to CoinGecko API..."];
        AxiosGet CoinGecko_request] ++
       match fst (getBitcoinPriceFromCoinGecko w) with
       | inr _ => []
       | inl e2 =>
           [ConsoleError [LStr "CoinGecko API error:"; LStr (message e2)];
            ConsoleError [LStr "All API attempts failed"]]
       end
   end)%list.
Proof.
  rewrite getBitcoinPrice_unfold.
  rewrite (getBitcoinPriceFromCMC_unfold w), (getBitcoinPriceFromCoinGecko_unfold w).
  rewrite CMC_try_unfold, CoinGecko_try_unfold.
  destruct (usable_key w) as [key|]; cbn [fst snd].
  - destruct (match axios_get w (CMC_request key) with
              | inl e => inl e | inr data => CMC_record w data end);
      cbn [fst snd]; [|reflexivity].
    destruct (match axios_get w CoinGecko_request with
              | inl e => inl e | inr data => CoinGecko_record w data end);
      reflexivity.
  - destruct (match axios_get w CoinGecko_request with
              | inl e => inl e | inr data => CoinGecko_record w data end);
      reflexivity.
Qed.

(** X11: a lookup produces its events in one fixed order: the call to
    the primary provider (none without a credential); then, only if the
    primary function threw, its error line, the line announcing the
    fallback and the call to the secondary provider; then, only if that
    one threw too, its error line and the line that all attempts
    failed.  The secondary provider is never called before the primary
    one has failed and been logged. *)
Theorem X11_order_of_events (w : World) :
  snd (getBitcoinPrice w) =
  (match usable_key w with
   | Some key => [AxiosGet (CMC_request key)]
   | None => []
   end ++
   match fst (getBitcoinPriceFromCMC w) with
   | inr _ => []
   | inl e1 =>
       [ConsoleError [LStr "CoinMarketCap API error:"; LStr (message e1)];
        ConsoleLog [LStr "Falling back to CoinGecko API..."];
        AxiosGet CoinGecko_request] ++
       match fst (getBitcoinPriceFromCoinGecko w) with
       | inr _ => []
       | inl e2 =>
           [ConsoleError [LStr "CoinGecko API error:"; LStr (message e2)];
            ConsoleError [LStr "All API attempts failed"]]
       end
   end)%list.
Proof. exact (getBitcoinPrice_events w). Qed.

Lemma lookup_calls (w : World) (rq : AxiosRequest) :
  In (AxiosGet rq) (snd (getBitcoinPrice w)) ->
  rq = CoinGecko_request \/
  exists key, usable_key w = Some key /\ rq = CMC_request key.
Proof.
  rewrite getBitcoinPrice_events. intros H.
  apply in_app_or in H as [H|H].
  - destruct (usable_key w) as [key|]; simpl in H; [|contradiction].
    destruct H as [[= <-]|[]]. right. eauto.
  - destruct (fst (getBitcoinPriceFromCMC w)); simpl in H; [|contradiction].
    destruct H as [[=]|[[=]|[[= <-]|H]]]; [left; reflexivity|].
    destruct (fst (getBitcoinPriceFromCoinGecko w)); simpl in H;
      [destruct H as [[=]|[[=]|[]]] | contradiction].
Qed.

Lemma usable_key_credential (w : World) (key : string) :
  usable_key w = Some key ->
  COINMARKETCAP_API_KEY w = Some key /\ key <> EmptyString.
Proof.
  unfold usable_key.
  destruct (COINMARKETCAP_API_KEY w) as [[|a k]|]; try discriminate.
  intros [= <-]. split; [reflexivity|discriminate].
Qed.

Lemma serve_calls (w : World) (req : IncomingMessage) (rq : AxiosRequest) :
  In (AxiosGet rq) (snd (serve w req)) ->
  In (AxiosGet rq) (snd (getBitcoinPrice w)).
Proof.
  route_cases w req;
    try (cbn [snd]; unfold received_request; simpl;
         intros H; repeat destruct H as [H|H]; discriminate || contradiction).
  rewrite execute_end_unfold.
  destruct (JSON_parse w (concat EmptyString (chunks req))) as [e|request].
  { simpl. intros [H|[H|[]]]; discriminate. }
  destruct (get_prop request "name") as [e|name].
  { simpl. intros [H|[H|[H|[]]]]; discriminate. }
  destruct (strict_eq_string name "get-bitcoin-price").
  - destruct (getBitcoinPrice w) as [[e|r] t]; cbn [snd].
    + intros [H|[H|H]]; try discriminate.
      apply in_app_or in H as [H|[H|[]]]; [exact H|discriminate].
    + intros [H|[H|H]]; try discriminate. exact H.
  - destruct (ToString w name); simpl.
    + intros [H|[H|[H|[]]]]; discriminate.
    + intros [H|[H|[]]]; discriminate.
Qed.

(** X12: the credential leaves the process only as the
    [X-CMC_PRO_API_KEY] header of a request to the primary provider.
    Every outbound request of the server, whatever the incoming request,
    is either the fixed request to CoinGecko, which has no header, or
    the request to CoinMarketCap with the configured, non-empty key. *)
Theorem X12_credential_only_to_primary (w : World) (req : IncomingMessage)
        (rq : AxiosRequest) :
  In (AxiosGet rq) (snd (serve w req)) ->
  (rq = CoinGecko_request /\ rq_headers rq = [] /\ rq_url rq = COINGECKO_URL) \/
  (exists key,
     COINMARKETCAP_API_KEY w = Some key /\ key <> EmptyString /\
     rq = CMC_request key /\
     rq_headers rq = [("X-CMC_PRO_API_KEY", key)] /\ rq_url rq = CMC_URL).
Proof.
  intros H. apply serve_calls, lookup_calls in H.
  destruct H as [->|(key & Hk & ->)].
  - left. repeat split.
  - right. exists key. apply usable_key_credential in Hk as [H1 H2].
    repeat split; assumption.
Qed.

Lemma X12_credential_only_to_primary_witness :
  In (AxiosGet (CMC_request "test-key"))
     (snd (serve world_primary (POST "/execute" [body_price]))) /\
  exists key,
    COINMARKETCAP_API_KEY world_primary = Some key /\
    CMC_request "test-key" = CMC_request key.
Proof.
  assert (H : In (AxiosGet (CMC_request "test-key"))
                 (snd (serve world_primary (POST "/execute" [body_price]))))
    by (vm_compute; auto).
  split; [exact H|].
  destruct (X12_credential_only_to_primary world_primary
              (POST "/execute" [body_price]) (CMC_request "test-key") H)
    as [[E _]|(key & H1 & _ & H2 & _)].
  - discriminate E.
  - exists key. split; assumption.
Defined.



(** ** Answers of [POST /execute] *)




(** ** Bodies that name no tool *)

(** X14: a parsed body whose [name] is absent or is a string, number,
    boolean or null other than the tool's name is answered 400 with the
    message "Unknown tool: " followed by the name as a template literal
    shows it, "undefined" when there is none; so are bodies that are
    not objects at all, such as arrays, strings and numbers.  A body
    that parses to [null] is answered 500 with the message of the
    [TypeError] that reading its [name] throws. *)
Theorem X14_bodies_without_a_tool (w : World) (body : list string)
        (request : Value) :
  JSON_parse w (String.concat EmptyString body) = inr request ->
  let out := serve w (POST "/execute" body) in
  (forall name : Value,
     get_prop request "name" = inr name ->
     strict_eq_string name "get-bitcoin-price" = false ->
     match name with VObj _ | VArr _ => False | _ => True end ->
     exists text : string,
       ToString w name = inr text /\
       (name = VUndefined -> text = "undefined") /\
       (forall s, name = VStr s -> text = s) /\
       fst (fst out) = inr tt /\
       statusCode (response_of out) = 400 /\
       finished (response_of out) = true /\
       written (response_of out) = [error_body ("Unknown tool: " ++ text)]) /\
  (match request with
   | VBool _ | VNum _ | VStr _ | VArr _ | VObj [] =>
       statusCode (response_of out) = 400 /\
       written (response_of out) = [error_body "Unknown tool: undefined"]
   | _ => True
   end) /\
  (forall e : JsError,
     get_prop request "name" = inl e ->
     (request = VNull \/ request = VUndefined) /\
     class e = TypeError_ /\
     fst (fst out) = inr tt /\
     statusCode (response_of out) = 500 /\
     finished (response_of out) = true /\
     written (response_of out) = [error_body (message e)]).
Proof.
  intros Hparse out.
  assert (Hname : forall name,
             get_prop request "name" = inr name ->
             strict_eq_string name "get-bitcoin-price" = false ->
             match name with VObj _ | VArr _ => False | _ => True end ->
             exists text : string,
               ToString w name = inr text /\
               (name = VUndefined -> text = "undefined") /\
               (forall s, name = VStr s -> text = s) /\
               fst (fst out) = inr tt /\
               statusCode (response_of out) = 400 /\
               finished (response_of out) = true /\
               written (response_of out) = [error_body ("Unknown tool: " ++ text)]).
  { intros name Hn Hneq Hprim.
    destruct (ToString_primitive w name Hprim) as [text Ht].
    exists text. split; [exact Ht|].
    split; [intros ->; simpl in Ht; congruence|].
    split; [intros s ->; simpl in Ht; congruence|].
    exact (unknown_tool_refused w body request name text Hparse Hn Hneq Ht). }
  split; [exact Hname|]. split.
  - assert (Hu : get_prop request "name" = inr VUndefined ->
                 statusCode (response_of out) = 400 /\
                 written (response_of out) = [error_body "Unknown tool: undefined"]).
    { intros Hn. destruct (Hname VUndefined Hn eq_refl I)
        as (text & _ & Ht & _ & _ & H1 & _ & H2).
      rewrite (Ht eq_refl) in H2. split; assumption. }
    destruct request as [| |b|x|s|items|props]; try exact I;
      try (apply Hu; reflexivity).
    destruct props; [apply Hu; reflexivity|exact I].
  - intros e He.
    assert (Hshape : request = VNull \/ request = VUndefined).
    { destruct request; simpl in He; try discriminate; auto.
      destruct (lookup "name" props); discriminate. }
    split; [exact Hshape|]. split; [eauto using get_prop_error|].
    subst out. unfold response_of.
    rewrite serve_execute_unfold, execute_end_unfold, Hparse, He.
    cbn [fst snd]. unfold responded.
    rewrite stringify_error_payload. repeat split; reflexivity.
Qed.

Lemma X14_bodies_without_a_tool_witness :
  JSON_parse world_shapes (String.concat EmptyString ["[]"]) = inr (VArr []) /\
  statusCode (response_of (serve world_shapes (POST "/execute" ["[]"]))) = 400 /\
  written (response_of (serve world_shapes (POST "/execute" ["[]"])))
  = [error_body "Unknown tool: undefined"] /\
  statusCode (response_of (serve world_shapes (POST "/execute" [body_null]))) = 500 /\
  written (response_of (serve world_shapes (POST "/execute" [body_null])))
  = [error_body "Cannot read properties of null (reading 'name')"].
Proof.
  split; [reflexivity|].
  destruct (X14_bodies_without_a_tool world_shapes ["[]"] (VArr []) eq_refl)
    as (_ & (H1 & H2) & _).
  destruct (X14_bodies_without_a_tool world_shapes [body_null] VNull eq_refl)
    as (_ & _ & H3).
  destruct (H3 (TypeError "Cannot read properties of null (reading 'name')") eq_refl)
    as (_ & _ & _ & H4 & _ & H5).
  repeat split; assumption.
Defined.



(** ** How close the rendered numbers are *)

Lemma digits_value_uint_acc (d : Decimal.uint) :
  forall acc : positive,
    digits_value (Z.pos acc) (NilEmpty.string_of_uint d)
    = Some (Z.pos (Pos.of_uint_acc d acc)).
Proof.
  induction d; intros acc; cbn [NilEmpty.string_of_uint digits_value Pos.of_uint_acc];
    try reflexivity;
    match goal with
    | |- (if is_digit ?c then _ else _) = _ =>
        change (is_digit c) with true; cbv iota
    end;
    match goal with
    | |- digits_value ?a _ = Some (Z.pos (Pos.of_uint_acc _ ?b)) =>
        replace a with (Z.pos b) by (unfold digit_value; simpl N_of_ascii; lia)
    end;
    apply IHd.
Qed.

Lemma digits_value_uint (d : Decimal.uint) :
  digits_value 0 (NilEmpty.string_of_uint d) = Some (Z.of_N (Pos.of_uint d)).
Proof.
  induction d; cbn [NilEmpty.string_of_uint digits_value Pos.of_uint];
    try reflexivity;
    match goal with
    | |- (if is_digit ?c then _ else _) = _ =>
        change (is_digit c) with true; cbv iota
    end;
    try exact IHd;
    match goal with
    | |- digits_value ?a _ = Some (Z.of_N (N.pos (Pos.of_uint_acc _ ?b))) =>
        change a with (Z.pos b)
    end;
    apply digits_value_uint_acc.
Qed.

Lemma digits_value_decimal (n : Z) :
  0 <= n -> digits_value 0 (decimal_digits n) = Some n.
Proof.
  intros H. unfold decimal_digits. rewrite digits_value_uint. f_equal.
  destruct (Z.to_N n) as [|p] eqn:E; cbn [N.to_uint].
  - simpl. lia.
  - rewrite DecimalPos.Unsigned.of_to. lia.
Qed.

Lemma digits_value_zeros (k : nat) (s : string) :
  digits_value 0 (zeros k ++ s) = digits_value 0 s.
Proof. induction k; simpl; auto. Qed.

Lemma substring_whole (s : string) : substring 0 (String.length s) s = s.
Proof. induction s as [|c s IH]; simpl; [|rewrite IH]; reflexivity. Qed.

Lemma substring_split (s : string) :
  forall j : nat,
    (j <= String.length s)%nat ->
    substring 0 j s ++ substring j (String.length s - j) s = s.
Proof.
  induction s as [|c s IH]; intros j H; simpl in H.
  - destruct j; reflexivity.
  - destruct j as [|j].
    + rewrite Nat.sub_0_r, substring_whole. destruct s; reflexivity.
    + simpl. f_equal. apply IH. lia.
Qed.

Lemma read_hundredths_from_digits (a b : string) :
  all_digits a = true -> String.length b = 2%nat ->
  forall acc, read_hundredths_from acc (a ++ "." ++ b) = digits_value acc (a ++ b).
Proof.
  intros Ha Hb. induction a as [|c a IH]; intros acc.
  - destruct b as [|d1 [|d2 [|d3 b]]]; try discriminate. reflexivity.
  - simpl in Ha. apply andb_true_iff in Ha as [Hc Ha].
    cbn [append read_hundredths_from digits_value].
    rewrite (digit_is_not_point c Hc), Hc. apply IH. exact Ha.
Qed.

(** What [fixed_notation] writes for [n] reads back as [n]. *)
Lemma read_fixed_notation (n : Z) :
  0 <= n -> read_hundredths_from 0 (fixed_notation 2 n) = Some n.
Proof.
  intros Hn. unfold fixed_notation.
  destruct (decimal_digits_ok n) as [Hd Hl].
  set (m := if (String.length (decimal_digits n) <=? 2)%nat
            then zeros (2 + 1 - String.length (decimal_digits n)) ++ decimal_digits n
            else decimal_digits n).
  assert (Hm : all_digits m = true /\ (3 <= String.length m)%nat /\
               digits_value 0 m = Some n).
  { subst m. destruct (Nat.leb_spec (String.length (decimal_digits n)) 2).
    - rewrite all_digits_append, all_digits_zeros, Hd, length_append,
        digits_value_zeros, digits_value_decimal by assumption.
      repeat split.
      assert (forall k, String.length (zeros k) = k) as ->
          by (induction k; simpl; congruence).
      lia.
    - rewrite digits_value_decimal by assumption. repeat split; [exact Hd|lia]. }
  destruct Hm as (Hm1 & Hm2 & Hm3).
  assert (E : substring 0 (String.length m - 2) m
               ++ substring (String.length m - 2) 2 m = m).
  { pose proof (substring_split m (String.length m - 2) ltac:(lia)) as E.
    replace (String.length m - (String.length m - 2))%nat with 2%nat in E by lia.
    exact E. }
  cbv zeta. rewrite read_hundredths_from_digits.
  - rewrite E. exact Hm3.
  - now apply all_digits_substring.
  - apply length_substring. lia.
Qed.

(** The integer that [toFixed(2)] renders is within a half of one
    hundred times the double. *)
Lemma nearest_scaled_bound (m : positive) (e : Z) :
  0 <= nearest_scaled 2 m e /\
  2 * Z.abs (nearest_scaled 2 m e * 2 ^ Z.max 0 (- e)
             - 100 * Z.pos m * 2 ^ Z.max 0 e)
  <= 2 ^ Z.max 0 (- e).
Proof.
  unfold nearest_scaled. change (10 ^ Z.of_nat 2) with 100.
  destruct (Z.leb_spec 0 e) as [He|He].
  - rewrite (Z.max_l 0 (- e)), (Z.max_r 0 e) by lia.
    assert (0 < 2 ^ e) by (apply Z.pow_pos_nonneg; lia).
    assert (0 <= Z.pos m * 2 ^ e) by (apply Z.mul_nonneg_nonneg; lia).
    split; [lia|]. change (2 ^ 0) with 1.
    replace (Z.pos m * 2 ^ e * 100 * 1 - 100 * Z.pos m * 2 ^ e) with 0 by ring.
    simpl. lia.
  - rewrite (Z.max_r 0 (- e)), (Z.max_l 0 e) by lia.
    set (D := 2 ^ (- e)).
    assert (HD : 0 < D) by (apply Z.pow_pos_nonneg; lia).
    change (2 ^ 0) with 1.
    pose proof (Z.div_mod (2 * Z.pos m * 100 + D) (2 * D) ltac:(lia)) as Hdm.
    pose proof (Z.mod_pos_bound (2 * Z.pos m * 100 + D) (2 * D) ltac:(lia)) as Hmod.
    set (q := (2 * Z.pos m * 100 + D) / (2 * D)) in *.
    set (r := (2 * Z.pos m * 100 + D) mod (2 * D)) in *.
    split.
    + apply Z.div_pos; lia.
    + assert (E : 2 * (q * D - 100 * Z.pos m * 1) = D - r) by lia.
      lia.
Qed.

Lemma toFixed_within_half_a_hundredth (w : World) (x : spec_float) :
  finite_below_1e21 x = true ->
  within_half_a_hundredth (Number_toFixed w 2 x) x.
Proof.
  destruct x as [s|s| |s m e];
    cbn [finite_below_1e21 within_half_a_hundredth Number_toFixed];
    try discriminate.
  - reflexivity.
  - intros H. apply negb_true_iff in H. rewrite H.
    destruct (nearest_scaled_bound m e) as [H0 Hb].
    exists (nearest_scaled 2 m e). split; [exact H0|]. split; [|exact Hb].
    destruct s.
    + change ("-" ++ ?t) with (String "-"%char t).
      unfold read_hundredths. cbn [Ascii.eqb Bool.eqb].
      rewrite read_fixed_notation by assumption. reflexivity.
    + cbn [append].
      pose proof (fixed_notation_two (nearest_scaled 2 m e)) as Hf.
      pose proof (read_fixed_notation (nearest_scaled 2 m e) H0) as Hr.
      destruct (fixed_notation 2 (nearest_scaled 2 m e)) as [|c t];
        [discriminate|].
      unfold read_hundredths.
      cbn [int_then_fraction] in Hf. apply andb_true_iff in Hf as [Hc _].
      rewrite (digit_is_not_minus c Hc). exact Hr.
Qed.

(** X15: every numeric field of a record the lookup returns is the
    number the answering provider sent, rounded to the nearest
    hundredth: when that number is finite and below [10^21], the field
    reads back as a whole number of hundredths that differs from it by
    half a hundredth at most. *)
Theorem X15_fields_rounded_to_the_nearest_hundredth (w : World) (r : PriceRecord) :
  fst (getBitcoinPrice w) = inr r ->
  exists p c m : spec_float,
    answered_with w r p c m /\
    (finite_below_1e21 p = true -> within_half_a_hundredth (price r) p) /\
    (finite_below_1e21 c = true ->
     within_half_a_hundredth (percent_change_24h r) c) /\
    (finite_below_1e21 m = true -> within_half_a_hundredth (market_cap r) m).
Proof.
  intros H.
  destruct (getBitcoinPrice_answered w r H) as (p & c & m & Ha & Hp & Hc & Hm).
  exists p, c, m. rewrite Hp, Hc, Hm.
  repeat split; try assumption; apply toFixed_within_half_a_hundredth.
Qed.

Lemma X15_fields_rounded_to_the_nearest_hundredth_witness :
  fst (getBitcoinPrice world_primary) = inr sample_primary_record /\
  read_hundredths (price sample_primary_record) = Some 4300010 /\
  exists p c m : spec_float,
    answered_with world_primary sample_primary_record p c m /\
    (finite_below_1e21 p = true ->
     within_half_a_hundredth (price sample_primary_record) p).
Proof.
  split; [reflexivity|]. split; [reflexivity|].
  destruct (X15_fields_rounded_to_the_nearest_hundredth world_primary
              sample_primary_record eq_refl) as (p & c & m & Ha & Hp & _).
  exists p, c, m. split; assumption.
Defined.


(** ** The command-line mode *)

Lemma displayBitcoinPrice_unfold (tm : Terminal) (r : PriceRecord) (w : World) :
  displayBitcoinPrice tm r w =
  match new_Date_toLocaleString tm w (last_updated r) with
  | inr date =>
      (inr tt, (lines_before_date tm w r
                ++ [last_updated_line date; source_line (source r)])%list)
  | inl e => (inl e, lines_before_date tm w r)
  end.
Proof.
  unfold displayBitcoinPrice, bind, console_log, emit, ask, with_world_eff,
    lines_before_date.
  cbn -[append Number_toFixed Number_div Number_ge new_Date_toLocaleString].
  destruct (new_Date_toLocaleString tm w (last_updated r)); reflexivity.
Qed.

Lemma cli_unfold (tm : Terminal) (w : World) :
  cli tm w =
  match fst (getBitcoinPrice w) with
  | inl e =>
      (inr 1, fetching :: (snd (getBitcoinPrice w) ++ [error_line (message e)])%list)
  | inr r =>
      match new_Date_toLocaleString tm w (last_updated r) with
      | inr date =>
          (inr 0,
           fetching :: (snd (getBitcoinPrice w) ++ lines_before_date tm w r
                        ++ [last_updated_line date; source_line (source r)])%list)
      | inl e =>
          (inr 1,
           fetching :: (snd (getBitcoinPrice w) ++ lines_before_date tm w r
                        ++ [error_line (message e)])%list)
      end
  end.
Proof.
  unfold cli. unfold bind at 1. unfold console_log at 1. unfold emit at 1.
  unfold try_catch. unfold bind at 1.
  destruct (getBitcoinPrice w) as [[e|r] t]; cbn [fst snd].
  - unfold bind, console_error, emit, ret. cbn. reflexivity.
  - unfold bind at 1. rewrite displayBitcoinPrice_unfold.
    destruct (new_Date_toLocaleString tm w (last_updated r)) as [e|date].
    + unfold bind, console_error, emit, ret. cbn -[lines_before_date].
      rewrite <- app_assoc. reflexivity.
    + unfold ret. cbn -[lines_before_date].
      rewrite app_nil_r. reflexivity.
Qed.

(** A record of the secondary provider carries a string as its date. *)
Lemma getBitcoinPrice_date (w : World) (r : PriceRecord) :
  fst (getBitcoinPrice w) = inr r ->
  source r = "CoinMarketCap" \/
  (source r = "CoinGecko" /\ exists iso, last_updated r = VStr iso).
Proof.
  rewrite getBitcoinPrice_unfold.
  destruct (fst (getBitcoinPriceFromCMC w)) as [e1|r1] eqn:E1; simpl.
  - destruct (fst (getBitcoinPriceFromCoinGecko w)) as [e2|r2] eqn:E2; [discriminate|].
    intros [= <-]. right. split; [now apply (CoinGecko_success_source w)|].
    rewrite getBitcoinPriceFromCoinGecko_unfold, CoinGecko_try_unfold in E2.
    simpl in E2.
    destruct (axios_get w CoinGecko_request) as [e|data]; [discriminate|].
    destruct (CoinGecko_record w data) as [e|r'] eqn:Er; simpl in E2; [discriminate|].
    injection E2 as ->.
    apply CoinGecko_record_iff in Er.
    destruct Er as (a & iso & p & c & m & _ & _ & _ & _ & _ & ->).
    exists iso. reflexivity.
  - intros [= <-]. left. now apply (CMC_success_source w).
Qed.

(** The date of the display fails exactly when the conversion of
    the value to a string does, which no primitive value makes fail. *)
Lemma new_Date_throws (tm : Terminal) (w : World) (v : Value) (e : JsError) :
  new_Date_toLocaleString tm w v = inl e <-> ToString w v = inl e.
Proof.
  destruct v as [| |b|x|s|items|props]; cbn [new_Date_toLocaleString];
    try (now split; [discriminate | simpl; discriminate]).
  - destruct b; split; discriminate.
  - unfold rbind. destruct (ToString w (VArr items)) as [e'|s];
      split; congruence.
  - unfold rbind. destruct (ToString w (VObj props)) as [e'|s];
      split; congruence.
Qed.

(** X16: when both providers fail, the command-line mode prints its
    announcement, the lines of the lookup and one red error line with
    the lookup's message, nothing of the price display, and exits with
    status 1. *)
Theorem X16_cli_total_failure (tm : Terminal) (w : World) (e : JsError) :
  fst (getBitcoinPrice w) = inl e ->
  cli tm w =
  (inr 1,
   fetching :: (snd (getBitcoinPrice w)
                ++ [error_line "Failed to fetch Bitcoin price"])%list).
Proof.
  intros H. rewrite cli_unfold, H.
  rewrite (getBitcoinPrice_failure w e H). reflexivity.
Qed.

Lemma X16_cli_total_failure_witness :
  fst (getBitcoinPrice world_down) = inl ALL_FAILED /\
  fst (cli sample_terminal world_down) = inr 1 /\
  last (snd (cli sample_terminal world_down)) fetching =
    error_line "Failed to fetch Bitcoin price".
Proof.
  split; [reflexivity|].
  rewrite (X16_cli_total_failure sample_terminal world_down ALL_FAILED eq_refl).
  split; reflexivity.
Defined.

(** X17: the command-line mode never ends with an exception of its
    own; it exits with status 0 or 1, and with 1 exactly when the lookup
    failed or when the primary provider's [last_updated], passed on
    unchecked, is an object or array that has no conversion to a string,
    so that the date of the display throws after the lookup succeeded.
    A record of the secondary provider is always displayed in full. *)
Theorem X17_cli_exit_status (tm : Terminal) (w : World) :
  (fst (cli tm w) = inr 0 \/ fst (cli tm w) = inr 1) /\
  (fst (cli tm w) = inr 1 <->
   fst (getBitcoinPrice w) = inl ALL_FAILED \/
   exists (r : PriceRecord) (e : JsError),
     fst (getBitcoinPrice w) = inr r /\
     source r = "CoinMarketCap" /\
     ToString w (last_updated r) = inl e /\
     snd (cli tm w) =
       fetching :: (snd (getBitcoinPrice w) ++ lines_before_date tm w r
                    ++ [error_line (message e)])%list) /\
  (forall r : PriceRecord,
     fst (getBitcoinPrice w) = inr r -> source r = "CoinGecko" ->
     exists date : string,
       cli tm w =
       (inr 0,
        fetching :: (snd (getBitcoinPrice w) ++ lines_before_date tm w r
                     ++ [last_updated_line date; source_line "CoinGecko"])%list)).
Proof.
  rewrite cli_unfold.
  destruct (fst (getBitcoinPrice w)) as [e|r] eqn:E.
  - rewrite (getBitcoinPrice_failure w e E). cbn [fst snd].
    split; [now right|]. split.
    + split; [now left | reflexivity].
    + intros r [=].
  - destruct (getBitcoinPrice_date w r E) as [Hs|[Hs [iso Hd]]].
    + destruct (new_Date_toLocaleString tm w (last_updated r)) as [e|date] eqn:D;
        cbn [fst snd].
      * apply new_Date_throws in D.
        split; [now right|]. split.
        -- split; [|reflexivity]. intros _. right. exists r, e. auto.
        -- intros r' [= <-] Hg. rewrite Hs in Hg. discriminate.
      * split; [now left|]. split.
        -- split; [discriminate|].
           intros [[=]|(r' & e & [= <-] & _ & H & _)].
           apply (new_Date_throws tm) in H. congruence.
        -- intros r' [= <-] Hg. rewrite Hs in Hg. discriminate.
    + rewrite Hd. cbn [new_Date_toLocaleString fst snd].
      split; [now left|]. split.
      * split; [discriminate|].
        intros [[=]|(r' & e & [= <-] & Hc & _)]. rewrite Hs in Hc. discriminate.
      * intros r' [= <-] _. rewrite Hs. eauto.
Qed.

Lemma X17_cli_exit_status_witness :
  fst (cli sample_terminal world_object_date) = inr 1 /\
  exists (r : PriceRecord) (e : JsError),
    fst (getBitcoinPrice world_object_date) = inr r /\
    source r = "CoinMarketCap" /\
    ToString world_object_date (last_updated r) = inl e.
Proof.
  split; [reflexivity|].
  destruct (X17_cli_exit_status sample_terminal world_object_date)
    as (_ & [Hexit _] & _).
  destruct (Hexit eq_refl) as [H|(r & e & H1 & H2 & H3 & _)].
  - discriminate H.
  - exists r, e. auto.
Defined.

(** The numbers behind a record are those of its fields. *)
Lemma answered_with_change (w : World) (r : PriceRecord) (p c m : spec_float) :
  fst (getBitcoinPrice w) = inr r ->
  answered_with w r p c m ->
  percent_change_24h r = Number_toFixed w 2 c.
Proof.
  intros H Ha.
  destruct (getBitcoinPrice_answered w r H) as (p' & c' & m' & Ha' & _ & Hc & _).
  rewrite Hc. f_equal.
  destruct Ha as [(Hs & key & data & Hk & Hd & _ & Hu & _)|(Hs & data & Hd & _ & Hu & _)];
    destruct Ha' as [(Hs' & key' & data' & Hk' & Hd' & _ & Hu' & _)
                    |(Hs' & data' & Hd' & _ & Hu' & _)];
    try (rewrite Hs in Hs'; discriminate).
  - assert (key' = key) as -> by congruence.
    assert (data' = data) as -> by congruence.
    congruence.
  - assert (data' = data) as -> by congruence.
    congruence.
Qed.

(** A negative double of magnitude below 0.005 is rendered as -0.00. *)
Lemma toFixed_small_loss (w : World) (mc : positive) (e : Z) :
  200 * Z.pos mc < 2 ^ (- e) ->
  Number_toFixed w 2 (S754_finite true mc e) = "-0.00".
Proof.
  intros H.
  assert (He : e < 0).
  { destruct (Z.ltb_spec e 0) as [|He]; [assumption|].
    destruct (Z.eq_dec e 0) as [->|Hne].
    - simpl in H. lia.
    - rewrite Z.pow_neg_r in H by lia. lia. }
  unfold Number_toFixed, ge_1e21, nearest_scaled.
  destruct (Z.leb_spec 0 e) as [|_]; [lia|].
  change (10 ^ Z.of_nat 2) with 100.
  destruct (Z.leb_spec (10 ^ 21 * 2 ^ (- e)) (Z.pos mc)) as [Hge|_]; [lia|].
  rewrite Z.div_small by lia. reflexivity.
Qed.

(** X18: a loss that the answering provider reports as a negative
    number of magnitude below 0.005 becomes the field -0.00, and the
    display, which colours by [parseFloat(field) >= 0], prints it in
    green with a plus sign, as +-0.00%, on any engine whose [parseFloat]
    reads -0.00 as the negative zero. *)
Theorem X18_small_loss_shown_as_gain (tm : Terminal) (w : World) (r : PriceRecord)
    (p m : spec_float) (mc : positive) (e : Z) :
  fst (getBitcoinPrice w) = inr r ->
  answered_with w r p (S754_finite true mc e) m ->
  200 * Z.pos mc < 2 ^ (- e) ->
  parseFloat tm "-0.00" = S754_zero true ->
  percent_change_24h r = "-0.00" /\
  In (change_line colors_green "+" "-0.00") (snd (cli tm w)).
Proof.
  intros H Ha Hsmall Hparse.
  assert (Hc : percent_change_24h r = "-0.00").
  { rewrite (answered_with_change w r p _ m H Ha).
    now apply toFixed_small_loss. }
  split; [exact Hc|].
  rewrite cli_unfold, H.
  assert (Hin : In (change_line colors_green "+" "-0.00") (lines_before_date tm w r)).
  { unfold lines_before_date. rewrite Hc, Hparse.
    right. right. left. reflexivity. }
  destruct (new_Date_toLocaleString tm w (last_updated r));
    cbn [snd]; right; apply in_or_app; right; apply in_or_app; left; exact Hin.
Qed.

Lemma X18_small_loss_shown_as_gain_witness :
  200 * 4611686018427388 < 2 ^ 62 /\
  In (ConsoleLog [LStr (colors_bright ++ "24h Change:" ++ colors_reset ++ " "
                        ++ colors_green ++ "+-0.00%" ++ colors_reset)])
     (snd (cli sample_terminal world_small_loss)).
Proof.
  split; [reflexivity|].
  refine (proj2 (X18_small_loss_shown_as_gain sample_terminal world_small_loss
            {| price := "43000.10";
               percent_change_24h := "-0.00";
               market_cap := "850000000000.00";
               last_updated := VStr "2023-11-14T22:13:20.000Z";
               source := "CoinMarketCap" |}
            d43000_1 d850e9 4611686018427388 (-62) eq_refl _ eq_refl eq_refl)).
  left. split; [reflexivity|].
  exists "test-key", cmc_payload_small_loss. repeat split.
Defined.

(** ** Which requests reach the providers *)

Lemma is_route_method (m u : string) (req : IncomingMessage) :
  is_route m u req = true -> method req = m /\ url req = u.
Proof.
  unfold is_route. intros H. apply andb_true_iff in H as [H1 H2].
  split; now apply String.eqb_eq.
Qed.

Lemma lookup_calls_count (w : World) :
  (1 <= List.length (outbound_calls (snd (getBitcoinPrice w))) <= 2)%nat.
Proof.
  rewrite getBitcoinPrice_events. unfold outbound_calls.
  rewrite filter_app, length_app.
  destruct (usable_key w) as [key|] eqn:Ek.
  - destruct (fst (getBitcoinPriceFromCMC w));
      destruct (fst (getBitcoinPriceFromCoinGecko w)); simpl; lia.
  - assert (E : fst (getBitcoinPriceFromCMC w) = inl KEY_MISSING)
      by (rewrite getBitcoinPriceFromCMC_unfold, CMC_try_unfold, Ek; reflexivity).
    rewrite E.
    destruct (fst (getBitcoinPriceFromCoinGecko w)); simpl; lia.
Qed.

(** X19: the providers are called for one kind of request only, a
    [POST /execute] whose body parses to a value whose [name] is the
    string get-bitcoin-price.  Such a request makes the calls of one
    lookup, one or two; every other request, whatever its route, body or
    tool name, makes none. *)
Theorem X19_upstream_calls_only_for_the_tool (w : World) (req : IncomingMessage) :
  outbound_calls (snd (serve w req)) =
    (if invokes_the_tool w req
     then outbound_calls (snd (getBitcoinPrice w)) else []) /\
  (invokes_the_tool w req = true ->
   1 <= List.length (outbound_calls (snd (serve w req))) <= 2)%nat.
Proof.
  assert (H : outbound_calls (snd (serve w req)) =
              if invokes_the_tool w req
              then outbound_calls (snd (getBitcoinPrice w)) else []).
  { unfold invokes_the_tool.
    route_cases w req;
      try (match goal with
           | E : _ = true |- _ =>
               first [apply String.eqb_eq in E
                     | apply is_route_method in E; destruct E as [E _]];
               unfold is_route; rewrite E; reflexivity
           end).
    - rewrite execute_end_unfold. cbn [andb].
      destruct (JSON_parse w (concat EmptyString (chunks req))) as [e|request];
        [reflexivity|].
      destruct (get_prop request "name") as [e|name]; [reflexivity|].
      destruct (strict_eq_string name "get-bitcoin-price").
      + destruct (getBitcoinPrice w) as [[e|r] t]; cbn [snd]; unfold outbound_calls.
        * cbn [filter received_request received]. rewrite filter_app.
          simpl. rewrite app_nil_r. reflexivity.
        * reflexivity.
      + destruct (ToString w name); reflexivity.
    - reflexivity. }
  split; [exact H|].
  intros Ht. rewrite H, Ht. apply lookup_calls_count.
Qed.

Lemma X19_upstream_calls_only_for_the_tool_witness :
  invokes_the_tool world_no_key (POST "/execute" [body_price]) = true /\
  (1 <= List.length (outbound_calls
          (snd (serve world_no_key (POST "/execute" [body_price])))) <= 2)%nat.
Proof.
  split; [reflexivity|].
  exact (proj2 (X19_upstream_calls_only_for_the_tool world_no_key
                  (POST "/execute" [body_price])) eq_refl).
Defined.

(** ** Results and errors *)


